(** * trade-invoice-extractor: the extraction engine of
    [trade-invoice-extractor.py], embedded and verified.

    The Python program reads the text lines of a vendor invoice, resolves
    the invoice date from the vendor's date-format template
    ([Order.extractDate]) and extracts the purchased items with a regular
    expression and token offsets counted from the end of the line
    ([Order.extractItems], [Order.isValidItem], [Item.__init__]).

    Conventions of the embedding:
    - a Python [int] is a [Z]; a Python [float] is an IEEE-754 binary64
      value, [spec_float] at precision 53 and maximal exponent 1024;
    - a Python [str] is a [list ascii], the code points below 256; among
      these the decimal digits are exactly ["0"] .. ["9"];
    - a raised exception is the [Raise] case of [result]; the operations of
      the Python library that the program calls ([str.split], [str.find],
      slicing, [int], [float], [re], [datetime]) are written out in
      [Module Py] and [Module Re] from their documented behaviour;
    - the text lines ([readPDF]) and the calendar year of
      [datetime.datetime.now()] are inputs;
    - the bound that recent versions of CPython put on the number of digits
      that [int] reads from a string is left out. *)

From Stdlib Require Import ZArith List Ascii String Bool Lia Permutation.
From Stdlib Require Import DecimalString DecimalZ DecimalPos SpecFloat.
Import ListNotations.

#[local] Open Scope list_scope.
#[local] Open Scope Z_scope.

(** ** Exceptions and results *)

Inductive exn : Type :=
| ValueError
| IndexError
| AttributeError
| TypeError
| OverflowError.

Inductive result (A : Type) : Type :=
| Ok (a : A)
| Raise (e : exn).

Arguments Ok {A} a.
Arguments Raise {A} e.

Definition bind {A B : Type} (r : result A) (k : A -> result B) : result B :=
  match r with
  | Ok a => k a
  | Raise e => Raise e
  end.

Notation "x <- r ;; k" := (bind r (fun x => k))
  (at level 61, r at next level, right associativity).

Definition is_ok {A : Type} (r : result A) : bool :=
  match r with Ok _ => true | Raise _ => false end.

Definition of_option {A : Type} (e : exn) (o : option A) : result A :=
  match o with Some a => Ok a | None => Raise e end.

(** ** The Python operations the program uses *)

Module Py.

Definition str : Type := list ascii.

Definition lit (s : string) : str := list_ascii_of_string s.

Definition len {A : Type} (l : list A) : Z := Z.of_nat (List.length l).

(** [s.split(sep)] for a separator of one character: every occurrence of
    [sep] ends a part, so adjacent separators give empty parts and the
    empty string gives one empty part. *)
Fixpoint split (sep : ascii) (s : str) : list str :=
  match s with
  | [] => [[]]
  | c :: s' =>
      if Ascii.eqb c sep then [] :: split sep s'
      else match split sep s' with
           | [] => [[c]]
           | w :: ws => (c :: w) :: ws
           end
  end.

(** [sep.join(words)]. *)
Fixpoint join (sep : str) (words : list str) : str :=
  match words with
  | [] => []
  | [w] => w
  | w :: ws => w ++ sep ++ join sep ws
  end.

(** [s.find(c)]: the index of the first [c], or [-1]. *)
Fixpoint find (c : ascii) (s : str) : Z :=
  match s with
  | [] => -1
  | x :: s' =>
      if Ascii.eqb x c then 0
      else let r := find c s' in if r <? 0 then -1 else r + 1
  end.

(** A slice bound: a negative bound counts from the end, and the result is
    clamped to [0 .. n]. *)
Definition clamp (n k : Z) : Z :=
  if k <? 0 then Z.max (k + n) 0 else Z.min k n.

(** [l[i:j]]. *)
Definition slice {A : Type} (l : list A) (i j : Z) : list A :=
  let lo := clamp (len l) i in
  let hi := clamp (len l) j in
  firstn (Z.to_nat (hi - lo)) (skipn (Z.to_nat lo) l).

(** [l[i]]: a negative index counts from the end; out of range raises. *)
Definition index {A : Type} (l : list A) (i : Z) : result A :=
  let k := if i <? 0 then i + len l else i in
  if k <? 0 then Raise IndexError
  else of_option IndexError (nth_error l (Z.to_nat k)).

Definition is_digit (c : ascii) : bool :=
  let n := nat_of_ascii c in (48 <=? n)%nat && (n <=? 57)%nat.

Definition digit_val (c : ascii) : Z := Z.of_nat (nat_of_ascii c) - 48.

(** White space: the code points below 256 for which [str.isspace]
    holds. *)
Definition is_space (c : ascii) : bool :=
  let n := nat_of_ascii c in
  ((9 <=? n)%nat && (n <=? 13)%nat)
  || ((28 <=? n)%nat && (n <=? 32)%nat)
  || (n =? 133)%nat || (n =? 160)%nat.

(** The white space that [int] and [float] strip at both ends: as above,
    but for the four separators [\x1c] .. [\x1f]. *)
Definition is_blank (c : ascii) : bool :=
  let n := nat_of_ascii c in
  ((9 <=? n)%nat && (n <=? 13)%nat)
  || (n =? 32)%nat || (n =? 133)%nat || (n =? 160)%nat.

Fixpoint lstrip (s : str) : str :=
  match s with
  | c :: s' => if is_blank c then lstrip s' else s
  | [] => []
  end.

Definition strip (s : str) : str := rev (lstrip (rev (lstrip s))).

(** A leading sign: [(negative, rest)]. *)
Definition take_sign (s : str) : bool * str :=
  match s with
  | "-"%char :: s' => (true, s')
  | "+"%char :: s' => (false, s')
  | _ => (false, s)
  end.

(** [digit (["_"] digit)*], read to the end of the string: the value and
    the number of digits. [after_digit] tells whether the character before
    was a digit, the only place where ["_"] or the end may come. *)
Fixpoint digitpart (s : str) (acc : Z) (n : Z) (after_digit : bool)
  : option (Z * Z) :=
  match s with
  | [] => if after_digit then Some (acc, n) else None
  | c :: s' =>
      if is_digit c then digitpart s' (10 * acc + digit_val c) (n + 1) true
      else if Ascii.eqb c "_"%char then
        if after_digit then digitpart s' acc n false else None
      else None
  end.

(** [int(s)] of a string, base ten. *)
Definition int_of_str (s : str) : result Z :=
  let '(neg, body) := take_sign (strip s) in
  match digitpart body 0 0 false with
  | Some (v, _) => Ok (if neg then - v else v)
  | None => Raise ValueError
  end.

(** [str(n)] of an integer. *)
Definition str_of_int (n : Z) : str :=
  list_ascii_of_string (NilZero.string_of_int (Z.to_int n)).

(** *** Floats *)

Definition float : Type := spec_float.

Definition prec : Z := 53.
Definition emax : Z := 1024.

Definition fmul : float -> float -> float := SFmul prec emax.

(** The double nearest to [m * 10^e] (ties to even), for [m > 0]. *)
Definition float_of_decimal (neg : bool) (m : positive) (e : Z) : float :=
  if 0 <=? e then binary_round prec emax neg (m * Z.to_pos (10 ^ e))%positive 0
  else SFdiv prec emax (S754_finite neg m 0)
                       (S754_finite false (Z.to_pos (10 ^ (- e))) 0).

(** [float(n)] of an integer: the nearest double; too large raises. *)
Definition float_of_int (n : Z) : result float :=
  match binary_normalize prec emax n 0 false with
  | S754_infinity _ => Raise OverflowError
  | f => Ok f
  end.

(** Cuts [s] at the first character satisfying [p]: the part before, and
    the part after it when there is one. *)
Fixpoint cut (p : ascii -> bool) (s : str) : str * option str :=
  match s with
  | [] => ([], None)
  | c :: s' =>
      if p c then ([], Some s')
      else let '(a, b) := cut p s' in (c :: a, b)
  end.

Definition lower (c : ascii) : ascii :=
  let n := nat_of_ascii c in
  if (65 <=? n)%nat && (n <=? 90)%nat then ascii_of_nat (n + 32) else c.

Definition str_eqb (a b : str) : bool :=
  if list_eq_dec ascii_dec a b then true else false.

(** A possibly empty run of digits (the integer or the fractional part). *)
Definition digits_opt (s : str) : option (Z * Z) :=
  match s with
  | [] => Some (0, 0)
  | _ => digitpart s 0 0 false
  end.

(** [[sign] digitpart], the exponent after ["e"]. *)
Definition exponent (s : str) : option Z :=
  let '(neg, body) := take_sign s in
  match digitpart body 0 0 false with
  | Some (v, _) => Some (if neg then - v else v)
  | None => None
  end.

(** [float(s)] of a string:
    [[sign] (digitpart ["."] | [digitpart] "." digitpart) [exponent]],
    or an infinity or a NaN by name, between white space. *)
Definition float_of_str (s : str) : result float :=
  let '(neg, body) := take_sign (strip s) in
  let name := map lower body in
  if str_eqb name (lit "inf") || str_eqb name (lit "infinity")
  then Ok (S754_infinity neg)
  else if str_eqb name (lit "nan") then Ok S754_nan
  else
    let '(mant, ex) := cut (fun c => Ascii.eqb (lower c) "e"%char) body in
    let '(ip, fp) := cut (fun c => Ascii.eqb c "."%char) mant in
    let frac := match fp with Some f => f | None => [] end in
    match digits_opt ip, digits_opt frac,
          match ex with Some x => exponent x | None => Some 0 end with
    | Some (iv, il), Some (fv, fl), Some e =>
        if (il + fl =? 0) then Raise ValueError
        else
          match iv * 10 ^ fl + fv with
          | Zpos m => Ok (float_of_decimal neg m (e - fl))
          | _ => Ok (S754_zero neg)
          end
    | _, _, _ => Raise ValueError
    end.

(** [int(x)] of a float: truncation towards zero. *)
Definition int_of_float (f : float) : result Z :=
  match f with
  | S754_zero _ => Ok 0
  | S754_infinity _ => Raise OverflowError
  | S754_nan => Raise ValueError
  | S754_finite s m e =>
      let v := if 0 <=? e then Z.pos m * 2 ^ e else Z.pos m / 2 ^ (- e) in
      Ok (if s then - v else v)
  end.

(** The values an [Item] may be built from. *)
Inductive value : Type :=
| VStr (s : str)
| VInt (n : Z)
| VFloat (f : float).

(** [int(v)] *)
Definition int (v : value) : result Z :=
  match v with
  | VStr s => int_of_str s
  | VInt n => Ok n
  | VFloat f => int_of_float f
  end.

(** [float(v)] *)
Definition to_float (v : value) : result float :=
  match v with
  | VStr s => float_of_str s
  | VInt n => float_of_int n
  | VFloat f => Ok f
  end.

End Py.

(** ** Regular expressions

    The part of Python's [re] that the program's patterns use: character
    classes, [^], fixed and greedy repetition of a class, sequencing and
    the two lookaheads, matched by backtracking with the leftmost match
    first. *)

Module Re.

Import Py.

Inductive cls : Type :=
| Digit                 (* \d *)
| Dot                   (* .  : any character but a newline *)
| Chr (c : ascii).      (* a literal or escaped character *)

Inductive re : Type :=
| Eps
| Cls (c : cls)
| Bol                   (* ^ *)
| Rep (n : nat) (c : cls)   (* c{n} *)
| Star (c : cls)        (* c* *)
| Seq (a b : re)
| Ahead (r : re)        (* (?=r) *)
| NotAhead (r : re).    (* (?!r) *)

Definition cls_ok (k : cls) (c : ascii) : bool :=
  match k with
  | Digit => is_digit c
  | Dot => negb (Ascii.eqb c "010"%char)
  | Chr x => Ascii.eqb c x
  end.

Section Engine.

Context {A : Type}.

(** A continuation receives the position reached and the rest of the
    subject. *)
Definition cont : Type := nat -> str -> option A.

Fixpoint rep (n : nat) (k : cls) (pos : nat) (s : str) (kont : cont)
  : option A :=
  match n with
  | O => kont pos s
  | S n' =>
      match s with
      | c :: s' => if cls_ok k c then rep n' k (S pos) s' kont else None
      | [] => None
      end
  end.

Fixpoint star (k : cls) (pos : nat) (s : str) (kont : cont) : option A :=
  match s with
  | c :: s' =>
      if cls_ok k c then
        match star k (S pos) s' kont with
        | Some x => Some x
        | None => kont pos s
        end
      else kont pos s
  | [] => kont pos s
  end.

End Engine.

Fixpoint run {A : Type} (r : re) (pos : nat) (s : str) (kont : @cont A)
  : option A :=
  match r with
  | Eps => kont pos s
  | Cls k => rep 1 k pos s kont
  | Bol => match pos with O => kont pos s | S _ => None end
  | Rep n k => rep n k pos s kont
  | Star k => star k pos s kont
  | Seq a b => run a pos s (fun pos' s' => run b pos' s' kont)
  | Ahead a =>
      match run a pos s (fun _ _ => Some tt) with
      | Some _ => kont pos s
      | None => None
      end
  | NotAhead a =>
      match run a pos s (fun _ _ => Some tt) with
      | Some _ => None
      | None => kont pos s
      end
  end.

(** The length of the match of [r] that starts at position [pos], where
    [s] is the subject from [pos] on. *)
Definition match_len (r : re) (pos : nat) (s : str) : option nat :=
  run r pos s (fun pos' _ => Some (pos' - pos)%nat).

Fixpoint search_from (r : re) (pos : nat) (s : str) : bool :=
  match match_len r pos s with
  | Some _ => true
  | None =>
      match s with
      | [] => false
      | _ :: s' => search_from r (S pos) s'
      end
  end.

(** [re.search(r, s)] finds a match. *)
Definition search (r : re) (s : str) : bool := search_from r 0 s.

(** The matches from left to right, none overlapping another: [skip]
    counts the characters still covered by the match before. *)
Fixpoint scan (r : re) (pos : nat) (s : str) (skip : nat) : list str :=
  match s with
  | [] =>
      match skip, match_len r pos [] with
      | O, Some _ => [[]]
      | _, _ => []
      end
  | _ :: s' =>
      match skip with
      | S k => scan r (S pos) s' k
      | O =>
          match match_len r pos s with
          | Some n => firstn n s :: scan r (S pos) s' (n - 1)
          | None => scan r (S pos) s' 0
          end
      end
  end.

(** [re.findall(r, s)] for a pattern without groups. *)
Definition findall (r : re) (s : str) : list str := scan r 0 s 0.

(** A character that a backslash makes literal. *)
Definition is_punct (c : ascii) : bool :=
  let n := nat_of_ascii c in
  ((33 <=? n)%nat && (n <=? 47)%nat) || ((58 <=? n)%nat && (n <=? 64)%nat)
  || ((91 <=? n)%nat && (n <=? 96)%nat) || ((123 <=? n)%nat && (n <=? 126)%nat).

(** Reads a pattern text made of the escapes [\d] and backslash-punctuation,
    the texts that [extractDate] builds; any other text is outside this
    reader and gives [None]. *)
Fixpoint compile (p : str) : option re :=
  match p with
  | [] => Some Eps
  | "\"%char :: c :: p' =>
      match compile p' with
      | Some r =>
          if Ascii.eqb c "d"%char then Some (Seq (Cls Digit) r)
          else if is_punct c then Some (Seq (Cls (Chr c)) r)
          else None
      | None => None
      end
  | _ => None
  end.

End Re.

(** ** Dates: [datetime.datetime(year, month, day)], at midnight *)

Module Datetime.

Record datetime : Type := { year : Z; month : Z; day : Z }.

Definition is_leap (y : Z) : bool :=
  (y mod 4 =? 0) && (negb (y mod 100 =? 0) || (y mod 400 =? 0)).

Definition days_in_month (y m : Z) : Z :=
  if m =? 2 then (if is_leap y then 29 else 28)
  else if (m =? 4) || (m =? 6) || (m =? 9) || (m =? 11) then 30
  else 31.

Definition c_int (n : Z) : bool := (- 2 ^ 31 <=? n) && (n <? 2 ^ 31).

(** The constructor: an argument that does not fit a C [int] overflows,
    a year, month or day out of range is a [ValueError]. *)
Definition make (y m d : Z) : result datetime :=
  if negb (c_int y && c_int m && c_int d) then Raise OverflowError
  else if (1 <=? y) && (y <=? 9999) && (1 <=? m) && (m <=? 12)
          && (1 <=? d) && (d <=? days_in_month y m)
  then Ok {| year := y; month := m; day := d |}
  else Raise ValueError.

(** [a < b], chronologically. *)
Definition ltb (a b : datetime) : bool :=
  (year a <? year b)
  || ((year a =? year b)
      && ((month a <? month b)
          || ((month a =? month b) && (day a <? day b)))).

Definition le (a b : datetime) : Prop := ltb b a = false.

(** [max(dates)]: the first of the greatest; none raises. *)
Definition max (dates : list datetime) : result datetime :=
  match dates with
  | [] => Raise ValueError
  | d :: rest => Ok (fold_left (fun m x => if ltb m x then x else m) rest d)
  end.

End Datetime.

(** ** The program *)

Import Py.
Import Datetime.


(** *** [class Vendor]

    [itemRegex] holds the pattern as [re] reads it. *)
Record Vendor : Type := {
  vendor_name : str;
  dateFormat : str;
  itemRegex : Re.re;
  itemNameOffsetIndex : Z;
  unitsOffsetIndex : Z;
  unitCostOffsetIndex : Z
}.

(** *** [class Item] *)
Record Item : Type := {
  item_name : str;
  units : Z;
  unitCost : float;
  total : float
}.

(** [Item.__init__]: [total] is [units * unitCost], the integer converted
    to a float for the product. *)
Definition Item_init (name : str) (units_ unitCost_ : value) : result Item :=
  u <- int units_ ;;
  c <- to_float unitCost_ ;;
  uf <- float_of_int u ;;
  Ok {| item_name := name; units := u; unitCost := c; total := fmul uf c |}.

(** *** [Order.isValidItem] *)
Definition isValidItem (v : Vendor) (offsetStart : Z) : bool :=
  if offsetStart + itemNameOffsetIndex v <? 0 then false
  else if offsetStart + itemNameOffsetIndex v >? offsetStart then false
  else if offsetStart + unitsOffsetIndex v <? 0 then false
  else if offsetStart + unitsOffsetIndex v >? offsetStart then false
  else if offsetStart + unitCostOffsetIndex v <? 0 then false
  else if offsetStart + unitCostOffsetIndex v >? offsetStart then false
  else true.

(** *** [Order.extractItems] *)

(** The words of a line and the index of the last one. *)
Definition words_of (line : str) : list str := split " " line.

Definition offsetStart_of (line : str) : Z := len (words_of line) - 1.

(** The cost as the loop rebuilds it from the parts of the cost word:
    [unitCostParts[0] + "." + unitCostParts[1][0:2]]. *)
Definition unitCost_of (unitCostParts : list str) : result str :=
  p0 <- index unitCostParts 0 ;;
  p1 <- index unitCostParts 1 ;;
  Ok (p0 ++ lit "." ++ slice p1 0 2).

(** What the loop does with a line once [isValidItem] has accepted it. *)
Definition extractFields (v : Vendor) (words : list str) (offsetStart : Z)
  (items : list Item) : result (list Item) :=
  let name :=
    join (lit " ") (slice words 1 (offsetStart + itemNameOffsetIndex v)) in
  units_ <- index words (offsetStart + unitsOffsetIndex v) ;;
  cost <- index words (offsetStart + unitCostOffsetIndex v) ;;
  let unitCostParts := split "." cost in
  if len unitCostParts >? 1 then
    unitCost_ <- unitCost_of unitCostParts ;;
    item <- Item_init name (VStr units_) (VStr unitCost_) ;;
    Ok (items ++ [item])
  else Ok items.

(** The body of the loop, for one line: the items so far, and one more
    when the line yields an item. *)
Definition extractItems_line (v : Vendor) (items : list Item) (line : str)
  : result (list Item) :=
  if Re.search (itemRegex v) line then
    let words := words_of line in
    let offsetStart := len words - 1 in
    if isValidItem v offsetStart then extractFields v words offsetStart items
    else Ok items
  else Ok items.

Fixpoint extractItems_from (v : Vendor) (items : list Item)
  (textLines : list str) : result (list Item) :=
  match textLines with
  | [] => Ok items
  | line :: rest =>
      items' <- extractItems_line v items line ;;
      extractItems_from v items' rest
  end.

Definition extractItems (v : Vendor) (textLines : list str)
  : result (list Item) :=
  extractItems_from v [] textLines.

(** *** [Order.extractDate] *)

Definition is_delim (c : ascii) : bool :=
  Ascii.eqb c "/" || Ascii.eqb c "-" || Ascii.eqb c ".".

(** [re.search("[\/\-\.]", dateFormat).group()] *)
Definition dateDelim_of (fmt : str) : result ascii :=
  of_option AttributeError (List.find is_delim fmt).

(** The part of the pattern for one character of the format. *)
Definition regexPart (dateDelim : ascii) (char : ascii) : str :=
  if negb (Ascii.eqb char dateDelim) then lit "\d" else "\"%char :: [dateDelim].

(** [functools.reduce(lambda s, c: s + c, parts)] *)
Definition reduce_concat (parts : list str) : result str :=
  match parts with
  | [] => Raise TypeError
  | p :: rest => Ok (fold_left (fun s c => s ++ c) rest p)
  end.

(** The text of the pattern built from the format. *)
Definition date_regex (fmt : str) : result str :=
  dateDelim <- dateDelim_of fmt ;;
  reduce_concat (map (regexPart dateDelim) fmt).

Definition iD (fmt : str) : Z := find "D" fmt.
Definition iM (fmt : str) : Z := find "M" fmt.
Definition iY (fmt : str) : Z := find "Y" fmt.

Definition numD (fmt : str) : Z := len (split "D" fmt) - 1.
Definition numM (fmt : str) : Z := len (split "M" fmt) - 1.
Definition numY (fmt : str) : Z := len (split "Y" fmt) - 1.

(** [now_year] is [datetime.datetime.now().year]; it is read only for a
    two-character year. *)
Definition yearPrefix_of (fmt : str) (now_year : Z) : str :=
  if numY fmt =? 2 then slice (str_of_int now_year) 0 2 else [].

(** The [lambda d: datetime.datetime(...)] applied to one match. *)
Definition date_of_match (fmt : str) (yearPrefix : str) (d : str)
  : result datetime :=
  y <- int_of_str (yearPrefix ++ slice d (iY fmt) (iY fmt + numY fmt)) ;;
  m <- int_of_str (slice d (iM fmt) (iM fmt + numM fmt)) ;;
  dd <- int_of_str (slice d (iD fmt) (iD fmt + numD fmt)) ;;
  Datetime.make y m dd.

(** [dates += map(f, matches)] *)
Fixpoint extend (f : str -> result datetime) (dates : list datetime)
  (matches : list str) : result (list datetime) :=
  match matches with
  | [] => Ok dates
  | d :: rest => x <- f d ;; extend f (dates ++ [x]) rest
  end.

(** The loop over the lines. *)
Fixpoint collect_dates (fmt : str) (yearPrefix : str) (regex : Re.re)
  (dates : list datetime) (textLines : list str) : result (list datetime) :=
  match textLines with
  | [] => Ok dates
  | line :: rest =>
      dates' <- extend (date_of_match fmt yearPrefix) dates
                  (Re.findall regex line) ;;
      collect_dates fmt yearPrefix regex dates' rest
  end.

(** All the dates of the document, in order, before the maximum is taken.
    The text that [date_regex] builds is always one that [Re.compile]
    reads, so the error of the second line is never raised. *)
Definition dates_of (fmt : str) (now_year : Z) (textLines : list str)
  : result (list datetime) :=
  regex <- date_regex fmt ;;
  r <- of_option ValueError (Re.compile regex) ;;
  collect_dates fmt (yearPrefix_of fmt now_year) r [] textLines.

Definition extractDate (v : Vendor) (now_year : Z) (textLines : list str)
  : result datetime :=
  dates <- dates_of (dateFormat v) now_year textLines ;;
  Datetime.max dates.

(** *** [class Order] *)
Record Order : Type := {
  date : datetime;
  items : list Item;
  textLines_ : list str;
  vendor : Vendor
}.

(** [Order.__init__], from the lines that [readPDF] has read. *)
Definition Order_init (v : Vendor) (now_year : Z) (textLines : list str)
  : result Order :=
  d <- extractDate v now_year textLines ;;
  its <- extractItems v textLines ;;
  Ok {| date := d; items := its; textLines_ := textLines; vendor := v |}.

(** *** [VendorList] *)

Module VendorList.

Import Re.

(** ["(?=^\d{3}.{2}\ )(?!.*03330 112 999)"] *)
Definition SCREWFIX_regex : re :=
  Seq (Ahead (Seq Bol (Seq (Rep 3 Digit) (Seq (Rep 2 Dot) (Cls (Chr " "))))))
      (NotAhead
         (Seq (Star Dot)
            (fold_right (fun c r => Seq (Cls (Chr c)) r) Eps
               (lit "03330 112 999")))).

Definition SCREWFIX : Vendor := {|
  vendor_name := lit "Screwfix";
  dateFormat := lit "DD/MM/YYYY";
  itemRegex := SCREWFIX_regex;
  itemNameOffsetIndex := -8;
  unitsOffsetIndex := -8;
  unitCostOffsetIndex := -7
|}.

(** ["(?=^\d{5}\ )(?!.*00006)(?!.*00037)"] *)
Definition TOOLSTATION_regex : re :=
  Seq (Ahead (Seq Bol (Seq (Rep 5 Digit) (Cls (Chr " ")))))
      (Seq (NotAhead
              (Seq (Star Dot)
                 (fold_right (fun c r => Seq (Cls (Chr c)) r) Eps
                    (lit "00006"))))
           (NotAhead
              (Seq (Star Dot)
                 (fold_right (fun c r => Seq (Cls (Chr c)) r) Eps
                    (lit "00037"))))).

Definition TOOLSTATION : Vendor := {|
  vendor_name := lit "Toolstation";
  dateFormat := lit "YYYY-MM-DD";
  itemRegex := TOOLSTATION_regex;
  itemNameOffsetIndex := -1;
  unitsOffsetIndex := -1;
  unitCostOffsetIndex := 0
|}.

End VendorList.

(** ** Notions used to state the properties *)

(** A float written in decimal, as Python reads the literal. *)
Definition float_lit (s : string) : float :=
  match float_of_str (lit s) with
  | Ok f => f
  | Raise _ => S754_nan
  end.

(** The finite float [f] is within half a unit in the last place of the
    fraction [num / den]: no double is nearer. *)
Definition nearest_to (f : float) (num den : Z) : Prop :=
  match f with
  | S754_finite false m e =>
      e <= 0 /\ 2 * Z.abs (den * Z.pos m - num * 2 ^ (- e)) <= den
  | _ => False
  end.

(** [total] agrees with the stored [units] and [unitCost]. *)
Definition total_in_sync (it : Item) : Prop :=
  exists uf, float_of_int (units it) = Ok uf
             /\ total it = fmul uf (unitCost it).

(** The resolved indices of the three fields all lie in
    [0 .. offsetStart]. *)
Definition offsets_in_window (offsetStart nameOffset unitsOffset
  unitCostOffset : Z) : Prop :=
  (0 <= offsetStart + nameOffset <= offsetStart)
  /\ (0 <= offsetStart + unitsOffset <= offsetStart)
  /\ (0 <= offsetStart + unitCostOffset <= offsetStart).

(** The number of occurrences of a character. *)
Definition count (c : ascii) (s : str) : Z :=
  Z.of_nat (List.length (filter (Ascii.eqb c) s)).

(** Splitting on white space, as the words of the specification have it:
    the words are the maximal runs of characters that are not white space. *)
Fixpoint split_whitespace_from (word : str) (s : str) : list str :=
  match s with
  | [] => match word with [] => [] | _ => [rev word] end
  | c :: s' =>
      if is_space c then
        match word with
        | [] => split_whitespace_from [] s'
        | _ => rev word :: split_whitespace_from [] s'
        end
      else split_whitespace_from (c :: word) s'
  end.

Definition split_whitespace (s : str) : list str :=
  split_whitespace_from [] s.

(** The pattern of a format, compiled. *)
Definition date_pattern (fmt : str) : option Re.re :=
  match date_regex fmt with
  | Ok p => Re.compile p
  | Raise _ => None
  end.

(** All the matches of the date pattern, line after line. *)
Definition all_matches (fmt : str) (textLines : list str) : list str :=
  match date_pattern fmt with
  | Some r => flat_map (Re.findall r) textLines
  | None => []
  end.

(** The dates of the matches that [f] parses. *)
Definition parsed (f : str -> result datetime) (matches : list str)
  : list datetime :=
  flat_map (fun d => match f d with Ok x => [x] | Raise _ => [] end) matches.

(** The dates of the matches that parse to a date. *)
Definition parsed_dates (fmt : str) (now_year : Z) (textLines : list str)
  : list datetime :=
  parsed (date_of_match fmt (yearPrefix_of fmt now_year))
    (all_matches fmt textLines).

(** [dt] is the latest of [dates]. *)
Definition latest (dt : datetime) (dates : list datetime) : Prop :=
  In dt dates /\ forall x, In x dates -> Datetime.le x dt.

(** The string [s] matches the whole of [r]. *)
Definition fullmatch (r : Re.re) (s : str) : Prop :=
  Re.match_len r 0 s = Some (List.length s).

(** The string [s] follows the skeleton of the format: as long as the
    format, the delimiter where the format has it and a digit elsewhere. *)
Definition follows (dateDelim : ascii) (fmt s : str) : Prop :=
  Forall2
    (fun char c =>
       if Ascii.eqb char dateDelim then c = dateDelim else is_digit c = true)
    fmt s.

(** The pattern that the format stands for: a digit for every character of
    the format but the delimiter, which stands for itself. *)
Definition skeleton (dateDelim : ascii) (fmt : str) : Re.re :=
  fold_right
    (fun char r =>
       Re.Seq (Re.Cls (if Ascii.eqb char dateDelim then Re.Chr dateDelim
                       else Re.Digit)) r)
    Re.Eps fmt.

(** The text of that pattern: [\d] for a digit, the delimiter behind a
    backslash. *)
Definition skeleton_text (dateDelim : ascii) (fmt : str) : str :=
  List.concat
    (map (fun char => if Ascii.eqb char dateDelim
                      then ["\"%char; dateDelim] else lit "\d")
       fmt).

(** The resolution of the date as the specification words it: the latest
    of the parsed dates, and an error exactly when there is none. *)
Definition resolves_latest_or_fails_when_none (v : Vendor) (now_year : Z)
  (textLines : list str) : Prop :=
  (forall dt, extractDate v now_year textLines = Ok dt ->
              latest dt (parsed_dates (dateFormat v) now_year textLines))
  /\ (is_ok (extractDate v now_year textLines) = false
      <-> parsed_dates (dateFormat v) now_year textLines = []).

(** The line yields one more item, and the item has no name. *)
Definition emits_unnamed_item (v : Vendor) (items : list Item) (line : str)
  : Prop :=
  exists item, extractItems_line v items line = Ok (items ++ [item])
               /\ item_name item = [].

(** The fields of a line, at the places that the offsets of the vendor
    give: the name, the word of the units and the word of the cost. *)
Definition nameOf (v : Vendor) (line : str) : str :=
  join (lit " ")
    (slice (words_of line) 1 (offsetStart_of line + itemNameOffsetIndex v)).

Definition unitsToken (v : Vendor) (line : str) : result str :=
  index (words_of line) (offsetStart_of line + unitsOffsetIndex v).

Definition costToken (v : Vendor) (line : str) : result str :=
  index (words_of line) (offsetStart_of line + unitCostOffsetIndex v).

(** A line that the item pattern of the vendor matches and that
    [isValidItem] accepts. *)
Definition candidate (v : Vendor) (line : str) : Prop :=
  Re.search (itemRegex v) line = true
  /\ isValidItem v (offsetStart_of line) = true.

(** ** The rest of the program *)

(** *** [Order.readPDF]

    The text of each page, [reader.pages[i].extract_text()], is an
    input. *)

(** The characters below 256 at which [str.splitlines] ends a line. *)
Definition is_linebreak (c : ascii) : bool :=
  let n := nat_of_ascii c in
  ((10 <=? n)%nat && (n <=? 13)%nat)
  || ((28 <=? n)%nat && (n <=? 30)%nat)
  || (n =? 133)%nat.

(** [text.splitlines()]: [cur] is the line being read, backwards, and
    [after_cr] tells that the character before was a carriage return, of
    which a line feed is then part. A text that ends with a line break has
    no empty last line. *)
Fixpoint splitlines_from (cur : str) (after_cr : bool) (text : str)
  : list str :=
  match text with
  | [] => match cur with [] => [] | _ => [rev cur] end
  | c :: text' =>
      if after_cr && Ascii.eqb c "010" then splitlines_from cur false text'
      else if is_linebreak c then
        rev cur :: splitlines_from [] (Ascii.eqb c "013") text'
      else splitlines_from (c :: cur) false text'
  end.

Definition splitlines (text : str) : list str := splitlines_from [] false text.

(** [readPDF]: [self.textLines += page.splitlines()], page after page. *)
Definition readPDF (pages : list str) : list str :=
  fold_left (fun textLines page => textLines ++ splitlines page) pages [].

(** [Order(vendor, pdfPath)], from the texts of the pages. *)
Definition Order_of_pages (v : Vendor) (now_year : Z) (pages : list str)
  : result Order :=
  Order_init v now_year (readPDF pages).

(** *** [Order.appendItemsToCSV] *)





(** *** [PDFFileType] and [CSVFileType] *)

(** What argparse gets from a type function: the value, or the
    [ArgumentTypeError] with its message. *)
Inductive arg_result : Type :=
| Accepted (v : str)
| ArgumentTypeError (message : str).

(** [$]: the end of the string, or the line feed that ends it. *)
Definition at_dollar (s : str) : bool :=
  match s with
  | [] => true
  | ["010"%char] => true
  | _ => false
  end.

(** The rest of [s] after the prefix [p], when [s] starts with [p]. *)
Fixpoint after_prefix (p s : str) : option str :=
  match p, s with
  | [], _ => Some s
  | a :: p', b :: s' => if Ascii.eqb a b then after_prefix p' s' else None
  | _ :: _, [] => None
  end.

(** [re.search(p + "$", s) is not None] for a literal [p]. *)
Fixpoint search_at_end (p s : str) : bool :=
  match after_prefix p s with
  | Some rest => at_dollar rest
  | None => false
  end
  || match s with
     | [] => false
     | _ :: s' => search_at_end p s'
     end.

Definition PDFFileType (v : str) : arg_result :=
  if negb (search_at_end (lit ".pdf") v)
  then ArgumentTypeError (v ++ lit " must be a .pdf file.")
  else Accepted v.

Definition CSVFileType (v : str) : arg_result :=
  if negb (search_at_end (lit ".csv") v)
  then ArgumentTypeError (v ++ lit " must be a .csv file.")
  else Accepted v.

(** *** [split-pdf-util.py] *)

(** The paths of the files that the utility writes for a PDF of [pages]
    pages: [f"{input_pdf_path}-{i}"] for each [i] of [range(pages)]. *)
Definition split_paths (input_pdf_path : str) (pages : nat) : list str :=
  map (fun i => input_pdf_path ++ lit "-" ++ str_of_int (Z.of_nat i))
    (seq 0 pages).

(** ** Notions for the properties of these *)

(** [sub] occurs in [s]. *)
Definition occurs (sub s : str) : Prop :=
  exists pre post, s = pre ++ sub ++ post.

(** [d] is a calendar date. *)
Definition calendar_date (d : datetime) : Prop :=
  1 <= year d <= 9999 /\ 1 <= month d <= 12
  /\ 1 <= day d <= days_in_month (year d) (month d).

(** The lines of the document on which the loop of [extractItems] goes
    past the two tests. *)
Definition candidateb (v : Vendor) (line : str) : bool :=
  Re.search (itemRegex v) line && isValidItem v (offsetStart_of line).

(** The pattern of a literal text. *)
Definition literal (p : str) : Re.re :=
  fold_right (fun c r => Re.Seq (Re.Cls (Re.Chr c)) r) Re.Eps p.

(** The line starts with an item code: [digits] digits, [gap] more
    characters and a space. *)
Definition item_code (digits gap : nat) (line : str) : Prop :=
  exists code mid rest,
    line = code ++ mid ++ " "%char :: rest
    /\ List.length code = digits
    /\ Forall (fun c => is_digit c = true) code
    /\ List.length mid = gap.

(** * Properties *)

(** ** Results and the Python operations *)

Lemma bind_Ok {A B : Type} (r : result A) (k : A -> result B) (b : B) :
  bind r k = Ok b -> exists a, r = Ok a /\ k a = Ok b.
Proof.
  destruct r as [a | e]; simpl; intros H; [eauto | discriminate].
Qed.

Lemma bind_Raise {A B : Type} (r : result A) (k : A -> result B) (e : exn) :
  bind r k = Raise e -> r = Raise e \/ exists a, r = Ok a /\ k a = Raise e.
Proof.
  destruct r as [a | e']; simpl; intros H; [right; eauto | left; congruence].
Qed.

Lemma is_ok_false {A : Type} (r : result A) :
  is_ok r = false <-> exists e, r = Raise e.
Proof.
  destruct r; simpl; split; intros H; try discriminate; eauto.
  destruct H as [e H]; discriminate.
Qed.

Lemma len_nonneg {A : Type} (l : list A) : 0 <= len l.
Proof. unfold len; lia. Qed.

Lemma len_cons {A : Type} (a : A) (l : list A) : len (a :: l) = len l + 1.
Proof. unfold len; simpl List.length; lia. Qed.

Lemma split_not_nil (sep : ascii) (s : str) : split sep s <> [].
Proof.
  destruct s as [| c s]; simpl; [discriminate |].
  destruct (Ascii.eqb c sep); [discriminate |].
  destruct (split sep s); discriminate.
Qed.

(** [split] cuts once at every separator. *)
Lemma len_split (sep : ascii) (s : str) :
  len (split sep s) = count sep s + 1.
Proof.
  unfold count.
  induction s as [| c s IH]; [reflexivity |].
  simpl. rewrite (Ascii.eqb_sym sep c).
  destruct (Ascii.eqb c sep).
  - rewrite len_cons, IH. simpl List.length. lia.
  - pose proof (split_not_nil sep s) as Hne.
    destruct (split sep s) as [| w ws]; [contradiction |].
    rewrite len_cons in *. lia.
Qed.

Lemma join_cons (sep w : str) (ws : list str) :
  ws <> [] -> join sep (w :: ws) = w ++ sep ++ join sep ws.
Proof. destruct ws; [contradiction | reflexivity]. Qed.

(** Joining the parts with the separator gives the string back. *)
Lemma join_split (sep : ascii) (s : str) : join [sep] (split sep s) = s.
Proof.
  induction s as [| c s IH]; [reflexivity |].
  simpl split. destruct (Ascii.eqb_spec c sep) as [-> | Hne].
  - rewrite join_cons by apply split_not_nil. simpl. now rewrite IH.
  - pose proof (split_not_nil sep s) as Hnil.
    destruct (split sep s) as [| w ws]; [contradiction |].
    destruct ws as [| w' ws].
    + simpl in *. now rewrite IH.
    + change (join [sep] (w :: w' :: ws))
        with (w ++ [sep] ++ join [sep] (w' :: ws)) in IH.
      change (join [sep] ((c :: w) :: w' :: ws))
        with ((c :: w) ++ [sep] ++ join [sep] (w' :: ws)).
      simpl. simpl in IH. now rewrite IH.
Qed.

(** No part holds the separator. *)
Lemma split_no_sep (sep : ascii) (s : str) :
  Forall (fun w => ~ In sep w) (split sep s).
Proof.
  induction s as [| c s IH]; simpl.
  - constructor; [intros [] | constructor].
  - destruct (Ascii.eqb_spec c sep) as [-> | Hne].
    + constructor; [intros [] | exact IH].
    + destruct (split sep s) as [| w ws]; [repeat constructor; intros [H | []]; congruence |].
      inversion IH; subst. constructor; [| assumption].
      intros [H | H]; [congruence | contradiction].
Qed.

(** A string that holds the separator splits into two parts at least. *)
Lemma split_two (sep : ascii) (s : str) :
  In sep s -> exists p0 p1 rest, split sep s = p0 :: p1 :: rest.
Proof.
  induction s as [| c s IH]; [intros [] |].
  intros Hin. simpl.
  destruct (Ascii.eqb_spec c sep) as [-> | Hne].
  - pose proof (split_not_nil sep s).
    destruct (split sep s) as [| w ws]; [contradiction | eauto].
  - destruct Hin as [-> | Hin]; [contradiction |].
    destruct (IH Hin) as (p0 & p1 & rest & ->). eauto.
Qed.

Lemma split_one (sep : ascii) (s : str) :
  ~ In sep s -> split sep s = [s].
Proof.
  induction s as [| c s IH]; [reflexivity |].
  intros Hin. simpl.
  destruct (Ascii.eqb_spec c sep) as [-> | Hne]; [exfalso; apply Hin; now left |].
  rewrite IH; [reflexivity | intros H; apply Hin; now right].
Qed.

Lemma index_in_range {A : Type} (l : list A) (i : Z) :
  0 <= i < len l -> exists a, index l i = Ok a /\ nth_error l (Z.to_nat i) = Some a.
Proof.
  intros [H0 H1]. unfold index.
  destruct (Z.ltb_spec i 0); [lia |].
  destruct (Z.ltb_spec i 0); [lia |].
  destruct (nth_error l (Z.to_nat i)) eqn:E; simpl; [eauto |].
  apply nth_error_None in E. unfold len in H1. lia.
Qed.

Lemma slice_upto {A : Type} (l : list A) (j : Z) :
  0 <= j -> slice l 0 j = firstn (Z.to_nat j) l.
Proof.
  intros Hj. unfold slice, clamp. pose proof (len_nonneg l) as Hl.
  destruct (Z.ltb_spec 0 0); [lia |].
  destruct (Z.ltb_spec j 0); [lia |].
  rewrite (Z.min_l 0) by lia. simpl skipn. rewrite Z.sub_0_r.
  destruct (Z.le_gt_cases j (len l)).
  - now rewrite Z.min_l by lia.
  - rewrite Z.min_r by lia. unfold len in *.
    rewrite Nat2Z.id, firstn_all. symmetry. apply firstn_all2. lia.
Qed.

(** A slice from index 1 whose upper bound is at most 1 is empty. *)
Lemma slice_empty {A : Type} (l : list A) (j : Z) :
  0 <= j <= 1 -> slice l 1 j = [].
Proof.
  intros Hj. unfold slice, clamp. pose proof (len_nonneg l) as Hl.
  destruct (Z.ltb_spec 1 0); [lia |].
  destruct (Z.ltb_spec j 0); [lia |].
  replace (Z.to_nat (Z.min j (len l) - Z.min 1 (len l))) with O by lia.
  reflexivity.
Qed.

(** ** OffsetValidator *)

(** C1. [isValidItem] accepts [offsetStart] exactly when each of the three
    offsets [o] of the vendor has [0 <= offsetStart + o <= offsetStart],
    whatever the four integers are. With [offsetStart = 10] the offsets
    [(-8, -8, -7)] are accepted and the offsets [(-20, 0, 0)] are not. *)
Theorem isValidItem_window :
  (forall (v : Vendor) (offsetStart : Z),
      isValidItem v offsetStart = true
      <-> offsets_in_window offsetStart (itemNameOffsetIndex v)
            (unitsOffsetIndex v) (unitCostOffsetIndex v))
  /\ (forall name fmt rx (offsetStart nameOffset unitsOffset unitCostOffset : Z),
         isValidItem
           {| vendor_name := name; dateFormat := fmt; itemRegex := rx;
              itemNameOffsetIndex := nameOffset;
              unitsOffsetIndex := unitsOffset;
              unitCostOffsetIndex := unitCostOffset |} offsetStart = true
         <-> offsets_in_window offsetStart nameOffset unitsOffset unitCostOffset)
  /\ (forall name fmt rx,
         isValidItem
           {| vendor_name := name; dateFormat := fmt; itemRegex := rx;
              itemNameOffsetIndex := -8; unitsOffsetIndex := -8;
              unitCostOffsetIndex := -7 |} 10 = true
         /\ isValidItem
              {| vendor_name := name; dateFormat := fmt; itemRegex := rx;
                 itemNameOffsetIndex := -20; unitsOffsetIndex := 0;
                 unitCostOffsetIndex := 0 |} 10 = false).
Proof.
  assert (H : forall (v : Vendor) (offsetStart : Z),
             isValidItem v offsetStart = true
             <-> offsets_in_window offsetStart (itemNameOffsetIndex v)
                   (unitsOffsetIndex v) (unitCostOffsetIndex v)).
  { intros v o. unfold isValidItem, offsets_in_window.
    rewrite !Z.gtb_ltb.
    repeat match goal with
           | |- context [?a <? ?b] => destruct (Z.ltb_spec a b)
           end; split; intros; try discriminate; try reflexivity; lia. }
  split; [exact H |]. split.
  - intros name fmt rx o a b c. apply H.
  - intros name fmt rx. split; reflexivity.
Qed.

(** ** Item *)

Lemma Item_init_Ok (name : str) (u c : value) (it : Item) :
  Item_init name u c = Ok it ->
  item_name it = name /\ int u = Ok (units it)
  /\ to_float c = Ok (unitCost it) /\ total_in_sync it.
Proof.
  unfold Item_init. intros H.
  apply bind_Ok in H. destruct H as (n & Hn & H).
  apply bind_Ok in H. destruct H as (f & Hf & H).
  apply bind_Ok in H. destruct H as (uf & Huf & H).
  injection H as <-. simpl. repeat split; auto.
  exists uf. simpl. auto.
Qed.

Lemma extractFields_sync (v : Vendor) (words : list str) (o : Z)
  (its its' : list Item) :
  extractFields v words o its = Ok its' ->
  Forall total_in_sync its -> Forall total_in_sync its'.
Proof.
  unfold extractFields. intros H Hall.
  apply bind_Ok in H. destruct H as (u & _ & H).
  apply bind_Ok in H. destruct H as (c & _ & H).
  destruct (len (split "." c) >? 1).
  - apply bind_Ok in H. destruct H as (uc & _ & H).
    apply bind_Ok in H. destruct H as (it & Hit & H).
    injection H as <-. apply Forall_app. split; [exact Hall |].
    constructor; [| constructor]. now apply Item_init_Ok in Hit.
  - now injection H as <-.
Qed.

Lemma extractItems_line_sync (v : Vendor) (its its' : list Item) (line : str) :
  extractItems_line v its line = Ok its' ->
  Forall total_in_sync its -> Forall total_in_sync its'.
Proof.
  unfold extractItems_line. intros H Hall.
  destruct (Re.search (itemRegex v) line); [| now injection H as <-].
  destruct (isValidItem v (len (words_of line) - 1)); [| now injection H as <-].
  eapply extractFields_sync; eauto.
Qed.

Lemma extractItems_from_sync (v : Vendor) (lines : list str) :
  forall its its',
    extractItems_from v its lines = Ok its' ->
    Forall total_in_sync its -> Forall total_in_sync its'.
Proof.
  induction lines as [| line rest IH]; simpl; intros its its' H Hall.
  - now injection H as <-.
  - apply bind_Ok in H. destruct H as (mid & Hmid & H).
    eapply IH; [exact H |]. eapply extractItems_line_sync; eauto.
Qed.

(** C8. The [total] of every constructed [Item] is [units * unitCost]: the
    constructor computes it from the [units] and [unitCost] it stores, and
    every item of an extraction or of an [Order] still has it so, as
    nothing in the program sets [total] apart from the constructor.
    [Item("Screw", 5, 1.20)] has total [6.00]. *)
Theorem Item_total_is_product :
  (forall (name : str) (u c : value) (it : Item),
      Item_init name u c = Ok it ->
      int u = Ok (units it) /\ to_float c = Ok (unitCost it)
      /\ exists uf, float_of_int (units it) = Ok uf
                    /\ total it = fmul uf (unitCost it))
  /\ (forall (v : Vendor) (textLines : list str) (its : list Item),
         extractItems v textLines = Ok its -> Forall total_in_sync its)
  /\ (forall (v : Vendor) (now_year : Z) (textLines : list str) (o : Order),
         Order_init v now_year textLines = Ok o ->
         Forall total_in_sync (items o))
  /\ Item_init (lit "Screw") (VInt 5) (VFloat (float_lit "1.20"))
     = Ok {| item_name := lit "Screw"; units := 5;
             unitCost := float_lit "1.20"; total := float_lit "6.00" |}
  /\ nearest_to (float_lit "1.20") 120 100
  /\ nearest_to (float_lit "6.00") 6 1.
Proof.
  split; [| split; [| split; [| split; [| split]]]];
    [| | | | vm_compute; split; intros; discriminate
           | vm_compute; split; intros; discriminate].
  - intros name u c it H. apply Item_init_Ok in H.
    destruct H as (_ & Hu & Hc & Hs). auto.
  - intros v lines its H. unfold extractItems in H.
    eapply extractItems_from_sync; [exact H | constructor].
  - intros v now lines o H. unfold Order_init in H.
    apply bind_Ok in H. destruct H as (d & _ & H).
    apply bind_Ok in H. destruct H as (its & Hits & H).
    injection H as <-. simpl.
    eapply extractItems_from_sync; [exact Hits | constructor].
  - vm_compute. reflexivity.
Qed.

(** The witness of C8: the screws of the specification. *)
Lemma Item_total_is_product_witness :
  Item_init (lit "Screw") (VInt 5) (VFloat (float_lit "1.20"))
  = Ok {| item_name := lit "Screw"; units := 5;
          unitCost := float_lit "1.20"; total := float_lit "6.00" |}
  /\ exists uf, float_of_int 5 = Ok uf
                /\ float_lit "6.00" = fmul uf (float_lit "1.20").
Proof.
  split; [vm_compute; reflexivity |].
  exact (proj2 (proj2
    (proj1 Item_total_is_product (lit "Screw") (VInt 5)
       (VFloat (float_lit "1.20"))
       {| item_name := lit "Screw"; units := 5;
          unitCost := float_lit "1.20"; total := float_lit "6.00" |}
       ltac:(vm_compute; reflexivity)))).
Defined.

(** ** The date pattern *)

Lemma fold_left_app_concat (rest : list str) (p : str) :
  fold_left (fun s c => s ++ c) rest p = p ++ List.concat rest.
Proof.
  revert p. induction rest as [| q rest IH]; intros p; simpl.
  - now rewrite app_nil_r.
  - now rewrite IH, app_assoc.
Qed.

Lemma reduce_concat_Ok (parts : list str) :
  parts <> [] -> reduce_concat parts = Ok (List.concat parts).
Proof.
  destruct parts as [| p rest]; [contradiction |]. intros _.
  simpl. now rewrite fold_left_app_concat.
Qed.

Lemma find_Some_nonempty {A : Type} (f : A -> bool) (l : list A) (a : A) :
  List.find f l = Some a -> l <> [].
Proof. destruct l; [discriminate | discriminate]. Qed.

Lemma is_delim_cases (c : ascii) :
  is_delim c = true -> c = "/"%char \/ c = "-"%char \/ c = "."%char.
Proof.
  unfold is_delim. intros H.
  apply orb_true_iff in H. destruct H as [H | H].
  - apply orb_true_iff in H. destruct H as [H | H]; apply Ascii.eqb_eq in H; auto.
  - apply Ascii.eqb_eq in H; auto.
Qed.

Lemma date_regex_text (fmt : str) (dl : ascii) :
  List.find is_delim fmt = Some dl ->
  date_regex fmt = Ok (skeleton_text dl fmt).
Proof.
  intros H. unfold date_regex, dateDelim_of. rewrite H. simpl.
  rewrite reduce_concat_Ok.
  - unfold skeleton_text.
    rewrite (map_ext (regexPart dl)
               (fun char => if Ascii.eqb char dl
                            then ["\"%char; dl] else lit "\d")).
    + reflexivity.
    + intros c. unfold regexPart. now destruct (Ascii.eqb c dl).
  - apply find_Some_nonempty in H. destruct fmt; [contradiction | discriminate].
Qed.

Lemma compile_skeleton_text (fmt : str) (dl : ascii) :
  is_delim dl = true ->
  Re.compile (skeleton_text dl fmt) = Some (skeleton dl fmt).
Proof.
  intros Hdl.
  assert (Hp : Ascii.eqb dl "d" = false /\ Re.is_punct dl = true).
  { destruct (is_delim_cases dl Hdl) as [-> | [-> | ->]]; split; reflexivity. }
  destruct Hp as [Hd Hp].
  induction fmt as [| c fmt IH]; [reflexivity |].
  assert (Hcons : skeleton_text dl (c :: fmt)
                  = "\"%char
                      :: (if Ascii.eqb c dl then dl else "d"%char)
                      :: skeleton_text dl fmt).
  { unfold skeleton_text. simpl. now destruct (Ascii.eqb c dl). }
  rewrite Hcons. simpl. rewrite IH.
  destruct (Ascii.eqb c dl).
  - now rewrite Hd, Hp.
  - reflexivity.
Qed.

Lemma date_pattern_skeleton (fmt : str) (dl : ascii) :
  List.find is_delim fmt = Some dl ->
  date_pattern fmt = Some (skeleton dl fmt).
Proof.
  intros H. unfold date_pattern. rewrite (date_regex_text fmt dl H).
  apply compile_skeleton_text. now apply find_some in H.
Qed.

Lemma follows_length (dl : ascii) (fmt s : str) :
  follows dl fmt s -> List.length s = List.length fmt.
Proof. intros H. symmetry. exact (Forall2_length H). Qed.

(** The pattern consumes a prefix that follows the format, and nothing
    else. *)
Lemma run_skeleton {A : Type} (dl : ascii) (fmt : str) :
  forall (pos : nat) (s : str) (kont : @Re.cont A) (x : A),
    Re.run (skeleton dl fmt) pos s kont = Some x
    <-> exists s1 s2, s = s1 ++ s2 /\ follows dl fmt s1
                      /\ kont (pos + List.length fmt)%nat s2 = Some x.
Proof.
  induction fmt as [| c fmt IH]; intros pos s kont x.
  - simpl. rewrite Nat.add_0_r. split.
    + intros H. exists [], s. repeat split; [constructor | exact H].
    + intros (s1 & s2 & -> & Hf & H). inversion Hf; subst. exact H.
  - simpl skeleton. simpl Re.run. split.
    + intros H. destruct s as [| a s]; [discriminate |].
      destruct (Re.cls_ok _ a) eqn:Hok; [| discriminate].
      apply IH in H. destruct H as (s1 & s2 & -> & Hf & H).
      exists (a :: s1), s2. repeat split.
      * constructor; [| exact Hf].
        destruct (Ascii.eqb c dl); simpl in Hok; [now apply Ascii.eqb_eq | exact Hok].
      * simpl List.length. now rewrite Nat.add_succ_r.
    + intros (s1 & s2 & -> & Hf & H). inversion Hf as [| c' a fmt' s1' Hc Hrest]; subst.
      simpl.
      assert (Hok : Re.cls_ok (if Ascii.eqb c dl then Re.Chr dl else Re.Digit) a = true).
      { destruct (Ascii.eqb c dl); simpl; [subst; apply Ascii.eqb_refl | exact Hc]. }
      rewrite Hok. apply IH. exists s1', s2. repeat split; [exact Hrest |].
      simpl List.length in H. now rewrite Nat.add_succ_r in H.
Qed.

Lemma match_len_skeleton (dl : ascii) (fmt : str) (pos : nat) (s : str) (n : nat) :
  Re.match_len (skeleton dl fmt) pos s = Some n
  <-> n = List.length fmt
      /\ exists s1 s2, s = s1 ++ s2 /\ follows dl fmt s1.
Proof.
  unfold Re.match_len. rewrite run_skeleton. split.
  - intros (s1 & s2 & -> & Hf & H). injection H as <-.
    split; [lia | eauto].
  - intros (-> & s1 & s2 & -> & Hf). exists s1, s2.
    repeat split; [exact Hf | f_equal; lia].
Qed.

Lemma fullmatch_skeleton (dl : ascii) (fmt : str) (s : str) :
  fullmatch (skeleton dl fmt) s <-> follows dl fmt s.
Proof.
  unfold fullmatch. rewrite match_len_skeleton. split.
  - intros (Hlen & s1 & s2 & -> & Hf).
    pose proof (follows_length _ _ _ Hf) as Hl.
    rewrite length_app in Hlen.
    assert (s2 = []) by (destruct s2; [reflexivity | simpl in Hlen; lia]).
    subst. now rewrite app_nil_r.
  - intros Hf. split; [now apply follows_length in Hf |].
    exists s, []. now rewrite app_nil_r.
Qed.

(** Every match that [findall] returns is a match of the pattern at some
    position of the line. *)
Lemma scan_In (r : Re.re) (s : str) :
  forall (pos skip : nat) (d : str),
    In d (Re.scan r pos s skip) ->
    exists pos' s' n, Re.match_len r pos' s' = Some n /\ d = firstn n s'.
Proof.
  induction s as [| c s IH]; intros pos skip d Hin.
  - simpl in Hin. destruct skip; [| contradiction].
    destruct (Re.match_len r pos []) as [n |] eqn:E; [| contradiction].
    destruct Hin as [<- | []]. exists pos, [], n. split; [exact E |].
    now rewrite firstn_nil.
  - simpl in Hin. destruct skip as [| k]; [| eauto].
    destruct (Re.match_len r pos (c :: s)) as [n |] eqn:E; [| eauto].
    destruct Hin as [<- | Hin]; [| eauto].
    exists pos, (c :: s), n. auto.
Qed.

Lemma findall_follows (dl : ascii) (fmt line d : str) :
  In d (Re.findall (skeleton dl fmt) line) -> follows dl fmt d.
Proof.
  intros Hin. apply scan_In in Hin. destruct Hin as (pos & s & n & Hm & ->).
  apply match_len_skeleton in Hm. destruct Hm as (-> & s1 & s2 & -> & Hf).
  rewrite <- (follows_length _ _ _ Hf).
  rewrite firstn_app, firstn_all, Nat.sub_diag. simpl. now rewrite app_nil_r.
Qed.

(** C5. For a format with a delimiter, which is its first character among
    [/], [-] and [.], the pattern that [extractDate] builds is, character
    after character of the format, a one-digit wildcard or, for the
    delimiter, the delimiter behind a backslash. A string matches that
    pattern exactly when it is as long as the format and has the delimiter
    where the format has it and a digit everywhere else; so has every match
    found in a line. *)
Theorem date_regex_skeleton (fmt : str) (dateDelim : ascii) :
  List.find is_delim fmt = Some dateDelim ->
  dateDelim_of fmt = Ok dateDelim
  /\ date_regex fmt
     = Ok (List.concat
             (map (fun char => if Ascii.eqb char dateDelim
                               then ["\"%char; dateDelim] else lit "\d")
                fmt))
  /\ exists r,
      date_pattern fmt = Some r
      /\ r = skeleton dateDelim fmt
      /\ (forall s, fullmatch r s <-> follows dateDelim fmt s)
      /\ (forall s, fullmatch r s -> List.length s = List.length fmt)
      /\ (forall line d, In d (Re.findall r line) -> follows dateDelim fmt d).
Proof.
  intros H. split; [unfold dateDelim_of; now rewrite H |].
  split; [exact (date_regex_text fmt dateDelim H) |].
  exists (skeleton dateDelim fmt).
  split; [exact (date_pattern_skeleton fmt dateDelim H) |].
  split; [reflexivity |].
  split; [intros s; apply fullmatch_skeleton |].
  split.
  - intros s Hs. apply fullmatch_skeleton in Hs. now apply follows_length in Hs.
  - intros line d. apply findall_follows.
Qed.

(** The witness of C5: the format of Screwfix. *)
Lemma date_regex_skeleton_witness :
  List.find is_delim (lit "DD/MM/YYYY") = Some "/"%char
  /\ date_regex (lit "DD/MM/YYYY") = Ok (lit "\d\d\/\d\d\/\d\d\d\d")
  /\ fullmatch (skeleton "/" (lit "DD/MM/YYYY")) (lit "15/03/2023").
Proof.
  split; [reflexivity |].
  destruct (date_regex_skeleton (lit "DD/MM/YYYY") "/"%char eq_refl)
    as (_ & Htext & r & _ & Hr & Hfull & _).
  split; [exact Htext |].
  subst r. apply Hfull. vm_compute. repeat constructor.
Defined.

(** ** The order of dates and the maximum *)

Ltac order_cases :=
  unfold Datetime.le, Datetime.ltb in *;
  repeat match goal with
         | H : context [?a <? ?b] |- _ => destruct (Z.ltb_spec a b)
         | |- context [?a <? ?b] => destruct (Z.ltb_spec a b)
         | H : context [?a =? ?b] |- _ => destruct (Z.eqb_spec a b)
         | |- context [?a =? ?b] => destruct (Z.eqb_spec a b)
         end;
  simpl in *; try reflexivity; try discriminate; try lia.

Lemma le_refl (a : datetime) : Datetime.le a a.
Proof. order_cases. Qed.

Lemma le_trans (a b c : datetime) :
  Datetime.le a b -> Datetime.le b c -> Datetime.le a c.
Proof. intros H1 H2. order_cases. Qed.

Lemma ltb_le (a b : datetime) : ltb a b = true -> Datetime.le a b.
Proof. intros H. order_cases. Qed.

Lemma fold_max_latest (rest : list datetime) :
  forall m : datetime,
    latest (fold_left (fun m x => if ltb m x then x else m) rest m) (m :: rest).
Proof.
  induction rest as [| x rest IH]; intros m.
  - simpl. split; [now left |]. intros y [<- | []]. apply le_refl.
  - simpl fold_left. destruct (ltb m x) eqn:E.
    + destruct (IH x) as [Hin Hle]. split.
      * destruct Hin as [<- | Hin]; [right; now left | right; now right].
      * intros y [<- | [<- | Hy]].
        -- eapply le_trans; [apply ltb_le; exact E | apply Hle; now left].
        -- apply Hle; now left.
        -- apply Hle; now right.
    + destruct (IH m) as [Hin Hle]. split.
      * destruct Hin as [<- | Hin]; [now left | right; now right].
      * intros y [<- | [<- | Hy]].
        -- apply Hle; now left.
        -- eapply le_trans; [exact E | apply Hle; now left].
        -- apply Hle; now right.
Qed.

Lemma max_Ok (dates : list datetime) (dt : datetime) :
  Datetime.max dates = Ok dt -> latest dt dates.
Proof.
  destruct dates as [| d rest]; [discriminate |].
  simpl. intros H. injection H as <-. apply fold_max_latest.
Qed.

Lemma max_Raise (dates : list datetime) :
  is_ok (Datetime.max dates) = false <-> dates = [].
Proof.
  destruct dates; simpl; split; intros H; try reflexivity; discriminate.
Qed.

(** ** Collecting the dates *)

Section Collect.

Variable f : str -> result datetime.

Lemma extend_Ok (matches : list str) :
  forall acc ds,
    extend f acc matches = Ok ds ->
    exists xs, ds = acc ++ xs
               /\ Forall2 (fun d x => f d = Ok x) matches xs.
Proof.
  induction matches as [| d rest IH]; simpl; intros acc ds H.
  - injection H as <-. exists []. split; [now rewrite app_nil_r | constructor].
  - apply bind_Ok in H. destruct H as (x & Hx & H).
    apply IH in H. destruct H as (xs & -> & Hall).
    exists (x :: xs). split; [now rewrite <- app_assoc | now constructor].
Qed.

Lemma extend_Raise (matches : list str) :
  forall acc e,
    extend f acc matches = Raise e ->
    Exists (fun d => is_ok (f d) = false) matches.
Proof.
  induction matches as [| d rest IH]; simpl; intros acc e H; [discriminate |].
  destruct (f d) as [x | e'] eqn:E; simpl in H.
  - apply Exists_cons_tl. eapply IH; eauto.
  - apply Exists_cons_hd. now rewrite E.
Qed.

Lemma all_Ok_parsed (matches : list str) (xs : list datetime) :
  Forall2 (fun d x => f d = Ok x) matches xs ->
  parsed f matches = xs /\ Forall (fun d => is_ok (f d) = true) matches.
Proof.
  induction 1 as [| d x rest xs Hd _ [IH1 IH2]]; [split; [reflexivity | constructor] |].
  unfold parsed in *. simpl. rewrite Hd. simpl. rewrite IH1.
  split; [reflexivity |]. constructor; [now rewrite Hd | exact IH2].
Qed.

Variables (fmt yearPrefix : str) (r : Re.re).
Hypothesis f_def : f = date_of_match fmt yearPrefix.

Lemma collect_Ok (lines : list str) :
  forall acc ds,
    collect_dates fmt yearPrefix r acc lines = Ok ds ->
    exists xs, ds = acc ++ xs
               /\ Forall2 (fun d x => f d = Ok x)
                    (flat_map (Re.findall r) lines) xs.
Proof.
  induction lines as [| line rest IH]; simpl; intros acc ds H.
  - injection H as <-.
    exists []. split; [now rewrite app_nil_r | constructor].
  - apply bind_Ok in H. destruct H as (mid & Hmid & H).
    rewrite <- f_def in Hmid.
    apply extend_Ok in Hmid. destruct Hmid as (xs1 & -> & H1).
    apply IH in H. destruct H as (xs2 & -> & H2).
    exists (xs1 ++ xs2). split; [now rewrite app_assoc |].
    now apply Forall2_app.
Qed.

Lemma collect_Raise (lines : list str) :
  forall acc e,
    collect_dates fmt yearPrefix r acc lines = Raise e ->
    Exists (fun d => is_ok (f d) = false) (flat_map (Re.findall r) lines).
Proof.
  induction lines as [| line rest IH]; simpl; intros acc e H; [discriminate |].
  apply Exists_app.
  apply bind_Raise in H. destruct H as [H | (mid & _ & H)].
  + left. rewrite <- f_def in H. eapply extend_Raise; eauto.
  + right. eapply IH; eauto.
Qed.

End Collect.

Lemma dates_of_eq (fmt : str) (now_year : Z) (lines : list str) :
  dates_of fmt now_year lines
  = match date_regex fmt with
    | Raise e => Raise e
    | Ok _ =>
        match date_pattern fmt with
        | Some r => collect_dates fmt (yearPrefix_of fmt now_year) r [] lines
        | None => Raise ValueError
        end
    end.
Proof.
  unfold dates_of, date_pattern.
  destruct (date_regex fmt) as [p | e]; simpl; [| reflexivity].
  now destruct (Re.compile p).
Qed.

(** The dates that [extractDate] collects are the dates of all the matches,
    in order, each of which parses. *)
Lemma dates_of_Ok (fmt : str) (now_year : Z) (lines : list str)
  (ds : list datetime) :
  dates_of fmt now_year lines = Ok ds ->
  Forall2 (fun d x => date_of_match fmt (yearPrefix_of fmt now_year) d = Ok x)
    (all_matches fmt lines) ds.
Proof.
  rewrite dates_of_eq. unfold all_matches. intros H.
  destruct (date_regex fmt); [| discriminate].
  destruct (date_pattern fmt) as [r |]; [| discriminate].
  apply (collect_Ok _ fmt (yearPrefix_of fmt now_year) r eq_refl) in H.
  now destruct H as (xs & -> & H).
Qed.

Lemma dates_of_Raise (fmt : str) (now_year : Z) (lines : list str) (e : exn) :
  dates_of fmt now_year lines = Raise e ->
  all_matches fmt lines = []
  \/ Exists
       (fun d => is_ok (date_of_match fmt (yearPrefix_of fmt now_year) d) = false)
       (all_matches fmt lines).
Proof.
  rewrite dates_of_eq. unfold all_matches, date_pattern. intros H.
  destruct (date_regex fmt) as [p |]; [| now left].
  destruct (Re.compile p) as [r |]; [| now left].
  right.
  now apply (collect_Raise _ fmt (yearPrefix_of fmt now_year) r eq_refl) in H.
Qed.

(** ** DateResolver *)

Lemma extractDate_Ok (v : Vendor) (now_year : Z) (textLines : list str)
  (dt : datetime) :
  extractDate v now_year textLines = Ok dt ->
  exists ds,
    dates_of (dateFormat v) now_year textLines = Ok ds
    /\ ds = parsed_dates (dateFormat v) now_year textLines
    /\ Forall
         (fun d => is_ok (date_of_match (dateFormat v)
                            (yearPrefix_of (dateFormat v) now_year) d) = true)
         (all_matches (dateFormat v) textLines)
    /\ latest dt ds.
Proof.
  unfold extractDate. intros H.
  apply bind_Ok in H. destruct H as (ds & Hds & Hmax).
  exists ds. split; [exact Hds |].
  apply dates_of_Ok, all_Ok_parsed in Hds. destruct Hds as [Hp Hall].
  split; [now symmetry |]. split; [exact Hall |]. now apply max_Ok.
Qed.

Lemma Forall_Exists_false {A : Type} (p : A -> bool) (l : list A) :
  Forall (fun a => p a = true) l -> Exists (fun a => p a = false) l -> False.
Proof.
  intros Hall Hex. apply Exists_exists in Hex. destruct Hex as (a & Hin & Ha).
  rewrite Forall_forall in Hall. specialize (Hall a Hin). congruence.
Qed.

(** C2, as the code has it. When [extractDate] returns, every match of the
    pattern has parsed to a date and the order date is the latest of these
    dates. It raises, and no date is put in its place, exactly when no
    match parses to a date or some match does not parse to a date: a match
    that is not a date of the calendar is an error too, also beside matches
    that are. From lines with [01/02/2023] and [15/03/2023] the date is
    15 March 2023. *)
Theorem extractDate_latest (v : Vendor) (now_year : Z) (textLines : list str) :
  (forall dt,
      extractDate v now_year textLines = Ok dt ->
      Forall
        (fun d => is_ok (date_of_match (dateFormat v)
                           (yearPrefix_of (dateFormat v) now_year) d) = true)
        (all_matches (dateFormat v) textLines)
      /\ latest dt (parsed_dates (dateFormat v) now_year textLines))
  /\ (is_ok (extractDate v now_year textLines) = false
      <-> parsed_dates (dateFormat v) now_year textLines = []
          \/ Exists
               (fun d => is_ok (date_of_match (dateFormat v)
                                  (yearPrefix_of (dateFormat v) now_year) d)
                         = false)
               (all_matches (dateFormat v) textLines))
  /\ extractDate VendorList.SCREWFIX now_year
       [lit "Ordered 01/02/2023"; lit "Delivered 15/03/2023"]
     = Ok {| year := 2023; month := 3; day := 15 |}.
Proof.
  split; [| split].
  - intros dt H. apply extractDate_Ok in H.
    destruct H as (ds & _ & -> & Hall & Hlatest). auto.
  - split.
    + intros H. apply is_ok_false in H. destruct H as [e H].
      unfold extractDate in H. apply bind_Raise in H.
      destruct H as [H | (ds & Hds & H)].
      * apply dates_of_Raise in H. destruct H as [H | H]; [left | now right].
        unfold parsed_dates. now rewrite H.
      * left. assert (ds = []) by (apply max_Raise; now rewrite H). subst ds.
        apply dates_of_Ok in Hds. inversion Hds as [Hm |].
        unfold parsed_dates. now rewrite <- Hm.
    + intros H. destruct (extractDate v now_year textLines) as [dt |] eqn:E;
        [exfalso | reflexivity].
      apply extractDate_Ok in E. destruct E as (ds & _ & -> & Hall & Hin & _).
      destruct H as [H | H].
      * rewrite H in Hin. contradiction.
      * exact (Forall_Exists_false _ _ Hall H).
  - vm_compute. reflexivity.
Qed.

(** The witness of C2: two lines with a date each. *)
Lemma extractDate_latest_witness :
  extractDate VendorList.SCREWFIX 2026
    [lit "Ordered 01/02/2023"; lit "Delivered 15/03/2023"]
  = Ok {| year := 2023; month := 3; day := 15 |}
  /\ latest {| year := 2023; month := 3; day := 15 |}
       (parsed_dates (lit "DD/MM/YYYY") 2026
          [lit "Ordered 01/02/2023"; lit "Delivered 15/03/2023"]).
Proof.
  split; [vm_compute; reflexivity |].
  exact (proj2 (proj1
    (extractDate_latest VendorList.SCREWFIX 2026
       [lit "Ordered 01/02/2023"; lit "Delivered 15/03/2023"])
    {| year := 2023; month := 3; day := 15 |}
    ltac:(vm_compute; reflexivity))).
Defined.

(** C2 as stated fails: beside a line with the date 15 March 2023, a line
    with [31/02/2023] matches the pattern and is no date; one date has
    parsed, and [extractDate] raises. *)
Lemma extractDate_raises_beside_a_date :
  parsed_dates (dateFormat VendorList.SCREWFIX) 2026
    [lit "15/03/2023"; lit "31/02/2023"]
  = [{| year := 2023; month := 3; day := 15 |}]
  /\ extractDate VendorList.SCREWFIX 2026 [lit "15/03/2023"; lit "31/02/2023"]
     = Raise ValueError
  /\ ~ resolves_latest_or_fails_when_none VendorList.SCREWFIX 2026
         [lit "15/03/2023"; lit "31/02/2023"].
Proof.
  split; [vm_compute; reflexivity |].
  split; [vm_compute; reflexivity |].
  intros [_ H].
  assert (Hp : parsed_dates (dateFormat VendorList.SCREWFIX) 2026
                 [lit "15/03/2023"; lit "31/02/2023"] = []).
  { apply H. vm_compute. reflexivity. }
  vm_compute in Hp. discriminate.
Qed.

(** C10. When the format does not have exactly two [Y], the date that
    [extractDate] resolves does not depend on the current year: the runs
    at two different times over the same lines agree, in the date and in
    the error. The formats of both vendors are such. *)
Theorem extractDate_ignores_clock :
  (forall (v : Vendor) (now1 now2 : Z) (textLines : list str),
      numY (dateFormat v) <> 2 ->
      extractDate v now1 textLines = extractDate v now2 textLines)
  /\ (forall (now1 now2 : Z) (textLines : list str),
         extractDate VendorList.SCREWFIX now1 textLines
         = extractDate VendorList.SCREWFIX now2 textLines)
  /\ (forall (now1 now2 : Z) (textLines : list str),
         extractDate VendorList.TOOLSTATION now1 textLines
         = extractDate VendorList.TOOLSTATION now2 textLines).
Proof.
  assert (H : forall (v : Vendor) (now1 now2 : Z) (textLines : list str),
             numY (dateFormat v) <> 2 ->
             extractDate v now1 textLines = extractDate v now2 textLines).
  { intros v now1 now2 lines Hn.
    unfold extractDate, dates_of, yearPrefix_of.
    destruct (Z.eqb_spec (numY (dateFormat v)) 2); [contradiction | reflexivity]. }
  split; [exact H |].
  split; intros; apply H; vm_compute; discriminate.
Qed.

(** The witness of C10: Screwfix, read in 1999 and in 2026. *)
Lemma extractDate_ignores_clock_witness :
  numY (dateFormat VendorList.SCREWFIX) <> 2
  /\ extractDate VendorList.SCREWFIX 1999 [lit "Delivered 15/03/2023"]
     = extractDate VendorList.SCREWFIX 2026 [lit "Delivered 15/03/2023"].
Proof.
  split; [vm_compute; discriminate |].
  apply (proj1 extractDate_ignores_clock VendorList.SCREWFIX 1999 2026).
  vm_compute. discriminate.
Defined.

(** ** The year prefix *)

Lemma make_Ok (y m d : Z) (x : datetime) :
  Datetime.make y m d = Ok x -> year x = y /\ month x = m /\ day x = d.
Proof.
  unfold Datetime.make. intros H.
  destruct (negb _); [discriminate |].
  destruct (_ && _); [| discriminate].
  injection H as <-. auto.
Qed.

Lemma date_of_match_year (fmt yearPrefix d : str) (x : datetime) :
  date_of_match fmt yearPrefix d = Ok x ->
  int_of_str (yearPrefix ++ slice d (iY fmt) (iY fmt + numY fmt))
  = Ok (year x).
Proof.
  unfold date_of_match. intros H.
  apply bind_Ok in H. destruct H as (y & Hy & H).
  apply bind_Ok in H. destruct H as (m & _ & H).
  apply bind_Ok in H. destruct H as (dd & _ & H).
  apply make_Ok in H. destruct H as (-> & _). exact Hy.
Qed.

Lemma count_nonneg (c : ascii) (s : str) : 0 <= count c s.
Proof. unfold count. lia. Qed.

Lemma count_cons (c x : ascii) (s : str) :
  count c (x :: s) = (if Ascii.eqb x c then 1 else 0) + count c s.
Proof.
  unfold count. simpl. rewrite (Ascii.eqb_sym c x).
  destruct (Ascii.eqb x c); simpl List.length; lia.
Qed.

(** With two occurrences at least, the first leaves room for a second. *)
Lemma find_room (c : ascii) (s : str) :
  2 <= count c s -> 0 <= find c s /\ find c s + 2 <= len s.
Proof.
  induction s as [| x s IH]; [unfold count; simpl; lia |].
  rewrite count_cons, len_cons. simpl find.
  destruct (Ascii.eqb x c).
  - intros H. split; [lia |].
    destruct s as [| y s]; [unfold count in H; simpl in H; lia |].
    rewrite len_cons. pose proof (len_nonneg s). lia.
  - intros H. destruct IH as [H0 H1]; [lia |].
    destruct (Z.ltb_spec (find c s) 0); lia.
Qed.

Lemma length_slice {A : Type} (l : list A) (i j : Z) :
  0 <= i <= j -> j <= len l -> len (slice l i j) = j - i.
Proof.
  intros Hij Hj. unfold slice, clamp.
  destruct (Z.ltb_spec i 0); [lia |].
  destruct (Z.ltb_spec j 0); [lia |].
  rewrite !Z.min_l by lia.
  unfold len in *. rewrite length_firstn, length_skipn. lia.
Qed.

Lemma all_matches_follow (fmt : str) (lines : list str) (d : str) :
  In d (all_matches fmt lines) ->
  exists dl, List.find is_delim fmt = Some dl /\ follows dl fmt d.
Proof.
  unfold all_matches. intros Hin.
  destruct (List.find is_delim fmt) as [dl |] eqn:E.
  - exists dl. split; [reflexivity |].
    rewrite (date_pattern_skeleton fmt dl E) in Hin.
    apply in_flat_map in Hin. destruct Hin as (line & _ & Hin).
    eapply findall_follows; eauto.
  - unfold date_pattern, date_regex, dateDelim_of in Hin. rewrite E in Hin.
    contradiction.
Qed.

Lemma century_20 (now_year : Z) :
  2000 <= now_year <= 2099 -> slice (str_of_int now_year) 0 2 = lit "20".
Proof.
  intros H.
  assert (Hall : forallb
                   (fun k => str_eqb
                               (slice (str_of_int (2000 + Z.of_nat k)) 0 2)
                               (lit "20"))
                   (seq 0 100) = true) by (vm_compute; reflexivity).
  rewrite forallb_forall in Hall.
  specialize (Hall (Z.to_nat (now_year - 2000))).
  replace (2000 + Z.of_nat (Z.to_nat (now_year - 2000))) with now_year in Hall
    by lia.
  unfold str_eqb in Hall.
  destruct (list_eq_dec ascii_dec _ _) as [Heq | _]; [exact Heq |].
  assert (false = true); [| discriminate].
  apply Hall. apply in_seq. lia.
Qed.

(** C6. When the format has two [Y], the year prefix is the first two
    characters of the current year, and the year of every date is read
    from the prefix followed by the two characters that the match has at
    the place of the year. With any other number of [Y] the prefix is
    empty and the year is read from the characters of the match alone.
    With the format [YY-MM-DD], in a year that begins with [20], the match
    [24-07-01] is resolved to the year 2024. *)
Theorem yearPrefix_two_digit_year (v : Vendor) (now_year : Z)
  (textLines : list str) :
  (numY (dateFormat v) = 2 ->
   yearPrefix_of (dateFormat v) now_year = firstn 2 (str_of_int now_year)
   /\ Forall (fun d => len (slice d (iY (dateFormat v)) (iY (dateFormat v) + 2)) = 2)
        (all_matches (dateFormat v) textLines)
   /\ forall ds,
       dates_of (dateFormat v) now_year textLines = Ok ds ->
       Forall2
         (fun d x =>
            int_of_str (firstn 2 (str_of_int now_year)
                        ++ slice d (iY (dateFormat v)) (iY (dateFormat v) + 2))
            = Ok (year x))
         (all_matches (dateFormat v) textLines) ds)
  /\ (numY (dateFormat v) <> 2 ->
      yearPrefix_of (dateFormat v) now_year = []
      /\ forall ds,
          dates_of (dateFormat v) now_year textLines = Ok ds ->
          Forall2
            (fun d x =>
               int_of_str (slice d (iY (dateFormat v))
                             (iY (dateFormat v) + numY (dateFormat v)))
               = Ok (year x))
            (all_matches (dateFormat v) textLines) ds)
  /\ (dateFormat v = lit "YY-MM-DD" ->
      2000 <= now_year <= 2099 ->
      extractDate v now_year [lit "24-07-01"]
      = Ok {| year := 2024; month := 7; day := 1 |}).
Proof.
  split; [| split].
  - intros H2.
    assert (Hp : yearPrefix_of (dateFormat v) now_year
                 = firstn 2 (str_of_int now_year)).
    { unfold yearPrefix_of. rewrite H2. simpl. now rewrite slice_upto by lia. }
    split; [exact Hp |]. split.
    + apply Forall_forall. intros d Hin.
      apply all_matches_follow in Hin. destruct Hin as (dl & _ & Hf).
      apply follows_length in Hf.
      unfold numY in H2. rewrite len_split in H2.
      destruct (find_room "Y" (dateFormat v)) as [H0 H1]; [lia |].
      rewrite length_slice; unfold iY, len in *; lia.
    + intros ds Hds. apply dates_of_Ok in Hds.
      eapply Forall2_impl; [| exact Hds].
      intros d x Hx. apply date_of_match_year in Hx.
      now rewrite Hp, H2 in Hx.
  - intros H2.
    assert (Hp : yearPrefix_of (dateFormat v) now_year = []).
    { unfold yearPrefix_of.
      destruct (Z.eqb_spec (numY (dateFormat v)) 2); [contradiction | reflexivity]. }
    split; [exact Hp |].
    intros ds Hds. apply dates_of_Ok in Hds.
    eapply Forall2_impl; [| exact Hds].
    intros d x Hx. apply date_of_match_year in Hx.
    now rewrite Hp in Hx.
  - intros Hfmt Hnow. unfold extractDate, dates_of. rewrite Hfmt.
    assert (Hp : yearPrefix_of (lit "YY-MM-DD") now_year = lit "20").
    { unfold yearPrefix_of. simpl. now apply century_20. }
    rewrite Hp. vm_compute. reflexivity.
Qed.

(** The witness of C6: a two-digit year read in 2026. *)
Lemma yearPrefix_two_digit_year_witness :
  numY (lit "YY-MM-DD") = 2
  /\ yearPrefix_of (lit "YY-MM-DD") 2026 = lit "20"
  /\ extractDate
       {| vendor_name := lit "Vendor"; dateFormat := lit "YY-MM-DD";
          itemRegex := Re.Eps; itemNameOffsetIndex := 0;
          unitsOffsetIndex := 0; unitCostOffsetIndex := 0 |}
       2026 [lit "24-07-01"]
     = Ok {| year := 2024; month := 7; day := 1 |}.
Proof.
  pose (v := {| vendor_name := lit "Vendor"; dateFormat := lit "YY-MM-DD";
                itemRegex := Re.Eps; itemNameOffsetIndex := 0;
                unitsOffsetIndex := 0; unitCostOffsetIndex := 0 |}).
  destruct (yearPrefix_two_digit_year v 2026 [lit "24-07-01"])
    as (H2 & _ & Hex).
  split; [reflexivity |].
  split.
  - exact (proj1 (H2 eq_refl)).
  - apply Hex; [reflexivity | lia].
Defined.

(** ** ItemLineMatcher and ItemFieldExtractor *)

Lemma isValidItem_true (v : Vendor) (o : Z) :
  isValidItem v o = true ->
  offsets_in_window o (itemNameOffsetIndex v) (unitsOffsetIndex v)
    (unitCostOffsetIndex v).
Proof.
  unfold isValidItem, offsets_in_window. rewrite !Z.gtb_ltb.
  repeat match goal with
         | |- context [?a <? ?b] => destruct (Z.ltb_spec a b)
         end; intros; try discriminate; lia.
Qed.

(** On a candidate line the words of the units and of the cost exist. *)
Lemma candidate_tokens (v : Vendor) (line : str) :
  candidate v line ->
  exists units_ cost, unitsToken v line = Ok units_ /\ costToken v line = Ok cost.
Proof.
  intros [_ Hv]. apply isValidItem_true in Hv.
  destruct Hv as (_ & Hu & Hc). unfold unitsToken, costToken.
  destruct (index_in_range (words_of line)
              (offsetStart_of line + unitsOffsetIndex v)) as (u & Hu' & _);
    [unfold offsetStart_of in *; lia |].
  destruct (index_in_range (words_of line)
              (offsetStart_of line + unitCostOffsetIndex v)) as (c & Hc' & _);
    [unfold offsetStart_of in *; lia |].
  eauto.
Qed.

Lemma extractItems_line_candidate (v : Vendor) (items : list Item) (line : str) :
  candidate v line ->
  extractItems_line v items line
  = extractFields v (words_of line) (offsetStart_of line) items.
Proof.
  intros [Hs Hv]. unfold extractItems_line. rewrite Hs.
  unfold offsetStart_of in Hv. now rewrite Hv.
Qed.

Lemma extractFields_eq (v : Vendor) (items : list Item) (line units_ cost : str) :
  unitsToken v line = Ok units_ ->
  costToken v line = Ok cost ->
  extractFields v (words_of line) (offsetStart_of line) items
  = if len (split "." cost) >? 1 then
      unitCost_ <- unitCost_of (split "." cost) ;;
      item <- Item_init (nameOf v line) (VStr units_) (VStr unitCost_) ;;
      Ok (items ++ [item])
    else Ok items.
Proof.
  unfold unitsToken, costToken, extractFields, nameOf.
  intros -> ->. reflexivity.
Qed.

Lemma unitCost_of_parts (ip fp : str) (rest : list str) :
  unitCost_of (ip :: fp :: rest) = Ok (ip ++ lit "." ++ firstn 2 fp).
Proof.
  unfold unitCost_of. simpl. now rewrite slice_upto by lia.
Qed.

Lemma len_two {A : Type} (l : list A) :
  2 <= len l -> exists a b rest, l = a :: b :: rest.
Proof.
  destruct l as [| a [| b rest]]; unfold len; simpl; intros H; try lia; eauto.
Qed.

(** C3. On a line that the item pattern matches and that [isValidItem]
    accepts: when the word of the cost, split at ["."], gives fewer than
    two parts, the line gives no item and no error; otherwise the cost is
    rebuilt from the first part, a ["."] and the first two characters of
    the second part, cut and not rounded, and a second part of one
    character is kept as it is. The cost word [12.345] gives the unit cost
    12.34 and the cost word [12] gives no item. *)
Theorem unitCost_truncated :
  (forall (v : Vendor) (items : list Item) (line : str),
      candidate v line ->
      exists units_ cost,
        unitsToken v line = Ok units_
        /\ costToken v line = Ok cost
        /\ (len (split "." cost) < 2 <-> ~ In "."%char cost)
        /\ (len (split "." cost) < 2 ->
            extractItems_line v items line = Ok items)
        /\ (2 <= len (split "." cost) ->
            exists ip fp rest,
              split "." cost = ip :: fp :: rest
              /\ extractItems_line v items line
                 = (item <- Item_init (nameOf v line) (VStr units_)
                              (VStr (ip ++ lit "." ++ firstn 2 fp)) ;;
                    Ok (items ++ [item]))))
  /\ unitCost_of (split "." (lit "12.345")) = Ok (lit "12.34")
  /\ unitCost_of (split "." (lit "12.3")) = Ok (lit "12.3")
  /\ (exists item,
         extractItems VendorList.TOOLSTATION [lit "12345 Box of screws 5 12.345"]
         = Ok [item]
         /\ unitCost item = float_lit "12.34"
         /\ nearest_to (unitCost item) 1234 100
         /\ unitCost item <> float_lit "12.35")
  /\ extractItems VendorList.TOOLSTATION [lit "12345 Box of screws 5 12"]
     = Ok [].
Proof.
  split; [| split; [| split; [| split]]].
  - intros v items line Hc.
    destruct (candidate_tokens v line Hc) as (units_ & cost & Hu & Hcost).
    exists units_, cost. split; [exact Hu |]. split; [exact Hcost |].
    split.
    { split.
      - intros Hlt Hin. destruct (split_two "." cost Hin) as (p0 & p1 & r & E).
        rewrite E, !len_cons in Hlt. pose proof (len_nonneg r). lia.
      - intros Hnot. now rewrite (split_one "." cost Hnot). }
    rewrite (extractItems_line_candidate v items line Hc).
    rewrite (extractFields_eq v items line units_ cost Hu Hcost).
    split.
    + intros Hlt. rewrite Z.gtb_ltb.
      destruct (Z.ltb_spec 1 (len (split "." cost))); [lia | reflexivity].
    + intros Hge. destruct (len_two _ Hge) as (ip & fp & rest & Hparts).
      exists ip, fp, rest. split; [exact Hparts |].
      rewrite Z.gtb_ltb.
      destruct (Z.ltb_spec 1 (len (split "." cost))); [| lia].
      rewrite Hparts, unitCost_of_parts. reflexivity.
  - vm_compute. reflexivity.
  - vm_compute. reflexivity.
  - eexists. split; [vm_compute; reflexivity |].
    split; [vm_compute; reflexivity |].
    split; [vm_compute; split; intros; discriminate | vm_compute; discriminate].
  - vm_compute. reflexivity.
Qed.

(** The witness of C3: a Toolstation line whose cost has three decimals. *)
Lemma unitCost_truncated_witness :
  candidate VendorList.TOOLSTATION (lit "12345 Box of screws 5 12.345")
  /\ exists units_ cost,
      unitsToken VendorList.TOOLSTATION (lit "12345 Box of screws 5 12.345")
      = Ok units_
      /\ costToken VendorList.TOOLSTATION (lit "12345 Box of screws 5 12.345")
         = Ok cost
      /\ cost = lit "12.345".
Proof.
  assert (Hc : candidate VendorList.TOOLSTATION
                 (lit "12345 Box of screws 5 12.345"))
    by (split; vm_compute; reflexivity).
  split; [exact Hc |].
  destruct (proj1 unitCost_truncated VendorList.TOOLSTATION []
              (lit "12345 Box of screws 5 12.345") Hc)
    as (units_ & cost & Hu & Hcost & _).
  exists units_, cost. split; [exact Hu |]. split; [exact Hcost |].
  vm_compute in Hcost. now injection Hcost as <-.
Defined.

(** ** Words that are not numbers *)

Lemma int_of_str_Raise (s : str) (e : exn) :
  int_of_str s = Raise e -> e = ValueError.
Proof.
  unfold int_of_str. destruct (take_sign (strip s)) as [neg body].
  destruct (digitpart body 0 0 false) as [[n k] |]; congruence.
Qed.

Lemma float_of_str_Raise (s : str) (e : exn) :
  float_of_str s = Raise e -> e = ValueError.
Proof.
  unfold float_of_str. destruct (take_sign (strip s)) as [neg body].
  destruct (_ || _); [discriminate |].
  destruct (str_eqb _ _); [discriminate |].
  destruct (cut _ body) as [mant ex].
  destruct (cut _ mant) as [ip fp].
  destruct (digits_opt ip) as [[iv il] |]; [| congruence].
  destruct (digits_opt _) as [[fv fl] |]; [| congruence].
  destruct (match ex with Some x => exponent x | None => Some 0 end);
    [| congruence].
  destruct (il + fl =? 0); [congruence |].
  destruct (iv * 10 ^ fl + fv); discriminate.
Qed.

Lemma float_of_int_Raise (n : Z) (e : exn) :
  float_of_int n = Raise e -> e = OverflowError.
Proof.
  unfold float_of_int.
  destruct (binary_normalize prec emax n 0 false); congruence.
Qed.

Lemma Item_init_not_numeric (name units_ unitCost_ : str) :
  is_ok (int_of_str units_) = false \/ is_ok (float_of_str unitCost_) = false ->
  Item_init name (VStr units_) (VStr unitCost_) = Raise ValueError.
Proof.
  unfold Item_init. simpl int. simpl to_float.
  destruct (int_of_str units_) as [n | e] eqn:En.
  - intros [H | H]; [discriminate |]. simpl.
    destruct (float_of_str unitCost_) as [f | e] eqn:Ef; [discriminate |].
    apply float_of_str_Raise in Ef. now subst.
  - intros _. apply int_of_str_Raise in En. now subst.
Qed.

(** A line that raises whatever the items so far stops the extraction of
    every document that holds it. *)
Lemma extractItems_from_fatal (v : Vendor) (line : str) (after : list str) :
  (forall items, is_ok (extractItems_line v items line) = false) ->
  forall before items,
    is_ok (extractItems_from v items (before ++ line :: after)) = false.
Proof.
  intros Hline. induction before as [| l before IH]; intros items; simpl.
  - specialize (Hline items).
    now destruct (extractItems_line v items line).
  - destruct (extractItems_line v items l); simpl; [apply IH | reflexivity].
Qed.

(** C7. On a line that the item pattern matches, that [isValidItem]
    accepts and whose cost word holds a ["."], if [int] refuses the word of
    the units or [float] refuses the rebuilt cost, then building the item
    raises [ValueError]: the line is not passed over, and the extraction
    and the construction of the [Order] fail for every document that holds
    the line. *)
Theorem not_numeric_is_fatal (v : Vendor) (items : list Item)
  (line units_ cost : str) :
  candidate v line ->
  unitsToken v line = Ok units_ ->
  costToken v line = Ok cost ->
  In "."%char cost ->
  exists unitCost_,
    unitCost_of (split "." cost) = Ok unitCost_
    /\ (is_ok (int_of_str units_) = false
        \/ is_ok (float_of_str unitCost_) = false ->
        extractItems_line v items line = Raise ValueError
        /\ (forall before after,
               is_ok (extractItems v (before ++ line :: after)) = false)
        /\ (forall now_year before after,
               is_ok (Order_init v now_year (before ++ line :: after)) = false)).
Proof.
  intros Hc Hu Hcost Hdot.
  destruct (split_two "." cost Hdot) as (ip & fp & rest & Hparts).
  exists (ip ++ lit "." ++ firstn 2 fp).
  split; [rewrite Hparts; apply unitCost_of_parts |].
  intros Hbad.
  assert (Hline : forall its, extractItems_line v its line = Raise ValueError).
  { intros its. rewrite (extractItems_line_candidate v its line Hc).
    rewrite (extractFields_eq v its line units_ cost Hu Hcost).
    rewrite Hparts, unitCost_of_parts.
    rewrite !len_cons. rewrite Z.gtb_ltb.
    pose proof (len_nonneg rest).
    destruct (Z.ltb_spec 1 (len rest + 1 + 1)); [| lia].
    simpl bind at 1.
    now rewrite (Item_init_not_numeric _ _ _ Hbad). }
  split; [apply Hline |].
  assert (Hall : forall before after,
             is_ok (extractItems v (before ++ line :: after)) = false).
  { intros before after. unfold extractItems.
    apply extractItems_from_fatal. intros its. now rewrite Hline. }
  split; [exact Hall |].
  intros now_year before after. unfold Order_init.
  destruct (extractDate v now_year (before ++ line :: after)); simpl;
    [| reflexivity].
  specialize (Hall before after).
  now destruct (extractItems v (before ++ line :: after)).
Qed.

(** The witness of C7: the units of a Toolstation line spelt out. *)
Lemma not_numeric_is_fatal_witness :
  candidate VendorList.TOOLSTATION (lit "12345 Box of screws five 1.20")
  /\ is_ok (int_of_str (lit "five")) = false
  /\ extractItems VendorList.TOOLSTATION
       [lit "12346 Nails 2 3.10"; lit "12345 Box of screws five 1.20"]
     = Raise ValueError
  /\ is_ok (Order_init VendorList.TOOLSTATION 2026
              [lit "2024-07-01"; lit "12345 Box of screws five 1.20"]) = false.
Proof.
  assert (Hc : candidate VendorList.TOOLSTATION
                 (lit "12345 Box of screws five 1.20"))
    by (split; vm_compute; reflexivity).
  split; [exact Hc |]. split; [reflexivity |].
  split; [vm_compute; reflexivity |].
  destruct (not_numeric_is_fatal VendorList.TOOLSTATION []
              (lit "12345 Box of screws five 1.20") (lit "five") (lit "1.20")
              Hc eq_refl eq_refl)
    as (unitCost_ & _ & Hfatal).
  - simpl. right. left. reflexivity.
  - destruct Hfatal as (_ & _ & Horder).
    + left. reflexivity.
    + exact (Horder 2026 [lit "2024-07-01"] []).
Defined.

(** ** Items without a name *)

Lemma nameOf_empty (v : Vendor) (line : str) :
  candidate v line ->
  offsetStart_of line + itemNameOffsetIndex v <= 1 ->
  nameOf v line = [].
Proof.
  intros [_ Hv] Hle. apply isValidItem_true in Hv. destruct Hv as (Hn & _).
  unfold nameOf. now rewrite slice_empty by lia.
Qed.

Lemma extractItems_line_dot (v : Vendor) (items : list Item)
  (line units_ cost unitCost_ : str) :
  candidate v line ->
  unitsToken v line = Ok units_ ->
  costToken v line = Ok cost ->
  In "."%char cost ->
  unitCost_of (split "." cost) = Ok unitCost_ ->
  extractItems_line v items line
  = (item <- Item_init (nameOf v line) (VStr units_) (VStr unitCost_) ;;
     Ok (items ++ [item])).
Proof.
  intros Hc Hu Hcost Hdot Hparts.
  rewrite (extractItems_line_candidate v items line Hc).
  rewrite (extractFields_eq v items line units_ cost Hu Hcost).
  destruct (split_two "." cost Hdot) as (ip & fp & rest & Hsplit).
  rewrite Hparts. rewrite Hsplit, !len_cons, Z.gtb_ltb.
  pose proof (len_nonneg rest).
  destruct (Z.ltb_spec 1 (len rest + 1 + 1)); [reflexivity | lia].
Qed.

(** C9, as the code has it. On a line that the item pattern matches, that
    [isValidItem] accepts and whose cost word holds a ["."], if
    [offsetStart + nameOffset <= 1] then the name is empty and the line is
    not passed over. When [int] reads the word of the units as an integer
    that a float can hold and [float] reads the rebuilt cost, the item is
    emitted with the empty name, these units and this cost. Otherwise the
    line raises: [ValueError] when [int] refuses the units or [float] the
    cost, [OverflowError] when the units are too large for a float. A line
    that the Screwfix pattern matches and that has nine words is such a
    line when its second word, the cost, holds a ["."]; its units are its
    first word. So [12345 1.20 a b c d e f g] gives an item without a
    name, and a Toolstation line whose units are a 1 and four hundred
    zeros raises [OverflowError]. *)
Theorem unnamed_item :
  (forall (v : Vendor) (items : list Item) (line units_ cost unitCost_ : str),
      candidate v line ->
      unitsToken v line = Ok units_ ->
      costToken v line = Ok cost ->
      In "."%char cost ->
      unitCost_of (split "." cost) = Ok unitCost_ ->
      offsetStart_of line + itemNameOffsetIndex v <= 1 ->
      nameOf v line = []
      /\ (forall u c uf,
             int_of_str units_ = Ok u ->
             float_of_str unitCost_ = Ok c ->
             float_of_int u = Ok uf ->
             extractItems_line v items line
             = Ok (items ++ [{| item_name := []; units := u; unitCost := c;
                                total := fmul uf c |}]))
      /\ (is_ok (int_of_str units_) = false
          \/ is_ok (float_of_str unitCost_) = false ->
          extractItems_line v items line = Raise ValueError)
      /\ (forall u,
             int_of_str units_ = Ok u ->
             is_ok (float_of_str unitCost_) = true ->
             is_ok (float_of_int u) = false ->
             extractItems_line v items line = Raise OverflowError)
      /\ (forall items',
             extractItems_line v items line = Ok items' ->
             exists item, items' = items ++ [item] /\ item_name item = []))
  /\ (forall (line : str),
         Re.search (itemRegex VendorList.SCREWFIX) line = true ->
         len (words_of line) = 9 ->
         candidate VendorList.SCREWFIX line
         /\ offsetStart_of line + itemNameOffsetIndex VendorList.SCREWFIX = 0
         /\ unitsToken VendorList.SCREWFIX line = index (words_of line) 0
         /\ costToken VendorList.SCREWFIX line = index (words_of line) 1)
  /\ extractItems VendorList.SCREWFIX [lit "12345 1.20 a b c d e f g"]
     = Ok [{| item_name := []; units := 12345; unitCost := float_lit "1.20";
              total := float_lit "14814.0" |}]
  /\ extractItems VendorList.TOOLSTATION
       [lit "12345 1" ++ repeat "0"%char 400 ++ lit " 1.20"]
     = Raise OverflowError.
Proof.
  split; [| split; [| split]]; [| | | vm_compute; reflexivity].
  - intros v items line units_ cost unitCost_ Hc Hu Hcost Hdot Hparts Hle.
    pose proof (nameOf_empty v line Hc Hle) as Hname.
    pose proof (extractItems_line_dot v items line units_ cost unitCost_
                  Hc Hu Hcost Hdot Hparts) as Heq.
    rewrite Hname in Heq.
    assert (Hinit : Item_init [] (VStr units_) (VStr unitCost_)
                    = (u <- int_of_str units_ ;;
                       c <- float_of_str unitCost_ ;;
                       uf <- float_of_int u ;;
                       Ok {| item_name := []; units := u; unitCost := c;
                             total := fmul uf c |})) by reflexivity.
    split; [exact Hname |]. split; [| split; [| split]].
    + intros u c uf Hi Hf Hconv.
      rewrite Heq, Hinit, Hi. simpl. rewrite Hf. simpl. rewrite Hconv.
      reflexivity.
    + intros Hbad. now rewrite Heq, (Item_init_not_numeric _ _ _ Hbad).
    + intros u Hi Hf Hconv. rewrite Heq, Hinit, Hi. simpl.
      destruct (float_of_str unitCost_) as [c |]; [| discriminate]. simpl.
      destruct (float_of_int u) as [uf | e] eqn:E; [discriminate |].
      apply float_of_int_Raise in E. now subst.
    + intros items' Hok. rewrite Heq in Hok.
      apply bind_Ok in Hok. destruct Hok as (item & Hitem & Hok).
      injection Hok as <-. exists item. split; [reflexivity |].
      now apply Item_init_Ok in Hitem.
  - intros line Hs Hlen.
    assert (Ho : offsetStart_of line = 8) by (unfold offsetStart_of; lia).
    unfold candidate, unitsToken, costToken. rewrite Ho.
    repeat split; try reflexivity. exact Hs.
  - vm_compute. reflexivity.
Qed.

(** The witness of C9: nine words, the first of them a number. *)
Lemma unnamed_item_witness :
  candidate VendorList.SCREWFIX (lit "12345 1.20 a b c d e f g")
  /\ offsetStart_of (lit "12345 1.20 a b c d e f g")
     + itemNameOffsetIndex VendorList.SCREWFIX <= 1
  /\ nameOf VendorList.SCREWFIX (lit "12345 1.20 a b c d e f g") = []
  /\ exists item,
      extractItems_line VendorList.SCREWFIX []
        (lit "12345 1.20 a b c d e f g") = Ok [item]
      /\ item_name item = [] /\ units item = 12345.
Proof.
  assert (Hc : candidate VendorList.SCREWFIX (lit "12345 1.20 a b c d e f g"))
    by (split; vm_compute; reflexivity).
  assert (Hle : offsetStart_of (lit "12345 1.20 a b c d e f g")
                + itemNameOffsetIndex VendorList.SCREWFIX <= 1)
    by (vm_compute; discriminate).
  assert (Hdot : In "."%char (lit "1.20")) by (simpl; right; left; reflexivity).
  destruct (proj1 unnamed_item VendorList.SCREWFIX []
              (lit "12345 1.20 a b c d e f g") (lit "12345") (lit "1.20")
              (lit "1.20") Hc eq_refl eq_refl Hdot eq_refl Hle)
    as (Hname & Hemit & _).
  split; [exact Hc |]. split; [exact Hle |]. split; [exact Hname |].
  exists {| item_name := []; units := 12345; unitCost := float_lit "1.20";
            total := fmul (binary_normalize prec emax 12345 0 false)
                       (float_lit "1.20") |}.
  split; [| split; reflexivity].
  apply (Hemit 12345 (float_lit "1.20")
           (binary_normalize prec emax 12345 0 false));
    vm_compute; reflexivity.
Defined.

(** C9 as stated fails: the Screwfix line [123AB 1.20 a b c d e f g] has
    nine words, is matched and accepted, its cost word holds a ["."] and
    its name bound is 0; the word of the units is the item code [123AB],
    which [int] refuses, and no item is emitted. *)
Lemma unnamed_item_not_emitted :
  candidate VendorList.SCREWFIX (lit "123AB 1.20 a b c d e f g")
  /\ len (words_of (lit "123AB 1.20 a b c d e f g")) = 9
  /\ (exists cost,
         costToken VendorList.SCREWFIX (lit "123AB 1.20 a b c d e f g")
         = Ok cost /\ In "."%char cost)
  /\ offsetStart_of (lit "123AB 1.20 a b c d e f g")
     + itemNameOffsetIndex VendorList.SCREWFIX <= 1
  /\ extractItems_line VendorList.SCREWFIX [] (lit "123AB 1.20 a b c d e f g")
     = Raise ValueError
  /\ ~ emits_unnamed_item VendorList.SCREWFIX []
         (lit "123AB 1.20 a b c d e f g").
Proof.
  split; [split; vm_compute; reflexivity |].
  split; [vm_compute; reflexivity |].
  split; [exists (lit "1.20"); split;
          [vm_compute; reflexivity | simpl; right; left; reflexivity] |].
  split; [vm_compute; discriminate |].
  assert (H : extractItems_line VendorList.SCREWFIX []
                (lit "123AB 1.20 a b c d e f g") = Raise ValueError)
    by (vm_compute; reflexivity).
  split; [exact H |].
  intros (item & Hitem & _). rewrite H in Hitem. discriminate.
Qed.

(** ** The words of a line *)

(** C4, as the code has it. The words of a line are its parts between
    space characters, [line.split(" ")]: joined with single spaces they
    give the line back and none holds a space, so two spaces in a row give
    an empty word and a tab or other white space does not end a word.
    [offsetStart] is the number of words less one, the index of the last
    word and the number of spaces of the line; on a line that the item
    pattern matches, validation and extraction work from these words and
    this [offsetStart]. *)
Theorem words_split_at_spaces :
  (forall line : str,
      join (lit " ") (words_of line) = line
      /\ Forall (fun w => ~ In " "%char w) (words_of line)
      /\ offsetStart_of line = len (words_of line) - 1
      /\ offsetStart_of line = count " " line
      /\ 0 <= offsetStart_of line)
  /\ (forall (v : Vendor) (items : list Item) (line : str),
         Re.search (itemRegex v) line = true ->
         extractItems_line v items line
         = if isValidItem v (offsetStart_of line)
           then extractFields v (words_of line) (offsetStart_of line) items
           else Ok items)
  /\ words_of (lit "12345 Box  of screws")
     = [lit "12345"; lit "Box"; []; lit "of"; lit "screws"].
Proof.
  split; [| split].
  - intros line. unfold offsetStart_of, words_of.
    split; [apply join_split |].
    split; [apply split_no_sep |].
    split; [reflexivity |].
    rewrite len_split. pose proof (count_nonneg " " line). lia.
  - intros v items line Hs. unfold extractItems_line. now rewrite Hs.
  - reflexivity.
Qed.

(** The witness of C4: a Toolstation line of five words. *)
Lemma words_split_at_spaces_witness :
  Re.search (itemRegex VendorList.TOOLSTATION)
    (lit "12345 Box of screws 5 1.20") = true
  /\ offsetStart_of (lit "12345 Box of screws 5 1.20") = 5
  /\ extractItems_line VendorList.TOOLSTATION []
       (lit "12345 Box of screws 5 1.20")
     = extractFields VendorList.TOOLSTATION
         (words_of (lit "12345 Box of screws 5 1.20")) 5 [].
Proof.
  split; [vm_compute; reflexivity |]. split; [reflexivity |].
  rewrite (proj1 (proj2 words_split_at_spaces) VendorList.TOOLSTATION []
             (lit "12345 Box of screws 5 1.20"));
    [reflexivity | vm_compute; reflexivity].
Defined.

(** C4 as stated fails: in the Toolstation line [12345 Screws<tab>5 1.20]
    a tab stands between the name and the units. White space ends four
    words there, the last at index 3; the code has three words and
    [offsetStart = 2], takes [Screws<tab>5] for the units and raises,
    where the four words would have given an item. *)
Lemma words_not_split_at_tab :
  let line := lit "12345 Screws" ++ "009"%char :: lit "5 1.20" in
  Re.search (itemRegex VendorList.TOOLSTATION) line = true
  /\ split_whitespace line = [lit "12345"; lit "Screws"; lit "5"; lit "1.20"]
  /\ words_of line <> split_whitespace line
  /\ offsetStart_of line = 2
  /\ offsetStart_of line <> len (split_whitespace line) - 1
  /\ extractItems VendorList.TOOLSTATION [line] = Raise ValueError
  /\ is_ok (extractFields VendorList.TOOLSTATION (split_whitespace line)
              (len (split_whitespace line) - 1) []) = true.
Proof.
  cbv zeta.
  split; [vm_compute; reflexivity |].
  split; [vm_compute; reflexivity |].
  split; [vm_compute; discriminate |].
  split; [vm_compute; reflexivity |].
  split; [vm_compute; discriminate |].
  split; vm_compute; reflexivity.
Qed.

(** * Further properties of the program *)

(** ** The errors that the extraction can raise *)

Lemma Item_init_Raise (name units_ unitCost_ : str) (e : exn) :
  Item_init name (VStr units_) (VStr unitCost_) = Raise e ->
  e = ValueError \/ e = OverflowError.
Proof.
  unfold Item_init. simpl int. simpl to_float. intros H.
  apply bind_Raise in H. destruct H as [H | (n & _ & H)];
    [left; eapply int_of_str_Raise; eauto |].
  apply bind_Raise in H. destruct H as [H | (f & _ & H)];
    [left; eapply float_of_str_Raise; eauto |].
  apply bind_Raise in H. destruct H as [H | (uf & _ & H)];
    [right; eapply float_of_int_Raise; eauto | discriminate].
Qed.

Lemma candidateb_true (v : Vendor) (line : str) :
  candidateb v line = true <-> candidate v line.
Proof.
  unfold candidateb, candidate. now rewrite andb_true_iff.
Qed.

Lemma extractItems_line_skip (v : Vendor) (items : list Item) (line : str) :
  candidateb v line = false -> extractItems_line v items line = Ok items.
Proof.
  unfold candidateb, extractItems_line, offsetStart_of. intros H.
  destruct (Re.search (itemRegex v) line); [| reflexivity].
  simpl in H. now rewrite H.
Qed.

(** What a line does to the items does not depend on the items so far. *)
Lemma extractItems_line_acc (v : Vendor) (items : list Item) (line : str) :
  extractItems_line v items line
  = (found <- extractItems_line v [] line ;; Ok (items ++ found)).
Proof.
  unfold extractItems_line.
  destruct (Re.search (itemRegex v) line); simpl;
    [| now rewrite app_nil_r].
  destruct (isValidItem v (len (words_of line) - 1)); simpl;
    [| now rewrite app_nil_r].
  unfold extractFields.
  destruct (index (words_of line) _) as [u |]; simpl; [| reflexivity].
  destruct (index (words_of line) _) as [c |]; simpl; [| reflexivity].
  destruct (len (split "." c) >? 1); simpl; [| now rewrite app_nil_r].
  destruct (unitCost_of (split "." c)) as [uc |]; simpl; [| reflexivity].
  destruct (Item_init _ (VStr u) (VStr uc)) as [it |]; simpl; reflexivity.
Qed.

Lemma extractItems_line_Raise (v : Vendor) (items : list Item) (line : str)
  (e : exn) :
  extractItems_line v items line = Raise e ->
  (e = ValueError \/ e = OverflowError)
  /\ candidate v line
  /\ exists cost, costToken v line = Ok cost /\ In "."%char cost.
Proof.
  intros H.
  destruct (candidateb v line) eqn:Hc;
    [| rewrite (extractItems_line_skip v items line Hc) in H; discriminate].
  apply candidateb_true in Hc.
  destruct (candidate_tokens v line Hc) as (units_ & cost & Hu & Hcost).
  rewrite (extractItems_line_candidate v items line Hc) in H.
  rewrite (extractFields_eq v items line units_ cost Hu Hcost) in H.
  rewrite Z.gtb_ltb in H.
  destruct (Z.ltb_spec 1 (len (split "." cost))) as [Hlen | Hlen];
    [| discriminate].
  assert (Hdot : In "."%char cost).
  { destruct (in_dec ascii_dec "."%char cost) as [Hin | Hnot]; [exact Hin |].
    rewrite (split_one "." cost Hnot) in Hlen. unfold len in Hlen.
    simpl in Hlen. lia. }
  destruct (split_two "." cost Hdot) as (ip & fp & rest & Hparts).
  rewrite Hparts, unitCost_of_parts in H. simpl bind at 1 in H.
  apply bind_Raise in H. destruct H as [H | (it & _ & H)]; [| discriminate].
  apply Item_init_Raise in H. eauto.
Qed.

Lemma extractItems_from_Raise (v : Vendor) (lines : list str) :
  forall (items : list Item) (e : exn),
    extractItems_from v items lines = Raise e ->
    exists line items',
      In line lines /\ extractItems_line v items' line = Raise e.
Proof.
  induction lines as [| l rest IH]; simpl; intros items e H; [discriminate |].
  apply bind_Raise in H. destruct H as [H | (mid & _ & H)].
  - exists l, items. auto.
  - destruct (IH mid e H) as (line & items' & Hin & Hl). eauto.
Qed.

(** X1. [extractItems] raises nothing but [ValueError] and
    [OverflowError]: no index is ever out of range. An error comes from a
    line that the pattern matches, that [isValidItem] accepts and whose
    cost word holds a ["."]; every other line is passed over. *)
Theorem extractItems_raises_only (v : Vendor) (textLines : list str) (e : exn) :
  extractItems v textLines = Raise e ->
  (e = ValueError \/ e = OverflowError)
  /\ exists line cost,
      In line textLines /\ candidate v line
      /\ costToken v line = Ok cost /\ In "."%char cost.
Proof.
  unfold extractItems. intros H.
  apply extractItems_from_Raise in H.
  destruct H as (line & items' & Hin & H).
  apply extractItems_line_Raise in H.
  destruct H as (He & Hc & cost & Hcost & Hdot).
  split; [exact He |]. exists line, cost. auto.
Qed.

(** The witness of X1: units that no float can hold. *)
Lemma extractItems_raises_only_witness :
  extractItems VendorList.TOOLSTATION
    [lit "12345 Box " ++ lit "1" ++ repeat "0"%char 400 ++ lit " 1.20"]
  = Raise OverflowError
  /\ (OverflowError = ValueError \/ OverflowError = OverflowError).
Proof.
  assert (H : extractItems VendorList.TOOLSTATION
                [lit "12345 Box " ++ lit "1" ++ repeat "0"%char 400
                 ++ lit " 1.20"]
              = Raise OverflowError) by (vm_compute; reflexivity).
  split; [exact H |].
  exact (proj1 (extractItems_raises_only _ _ _ H)).
Defined.

(** ** The errors that the resolution of the date can raise *)

Lemma make_Raise (y m d : Z) (e : exn) :
  Datetime.make y m d = Raise e -> e = ValueError \/ e = OverflowError.
Proof.
  unfold Datetime.make.
  destruct (negb _); [intros [= <-]; now right |].
  destruct (_ && _); [discriminate | intros [= <-]; now left].
Qed.

Lemma date_of_match_Raise (fmt yearPrefix d : str) (e : exn) :
  date_of_match fmt yearPrefix d = Raise e ->
  e = ValueError \/ e = OverflowError.
Proof.
  unfold date_of_match. intros H.
  apply bind_Raise in H. destruct H as [H | (y & _ & H)];
    [left; eapply int_of_str_Raise; eauto |].
  apply bind_Raise in H. destruct H as [H | (m & _ & H)];
    [left; eapply int_of_str_Raise; eauto |].
  apply bind_Raise in H. destruct H as [H | (dd & _ & H)];
    [left; eapply int_of_str_Raise; eauto |].
  eapply make_Raise; eauto.
Qed.

Lemma extend_Raise_at (f : str -> result datetime) (matches : list str) :
  forall acc e,
    extend f acc matches = Raise e -> exists d, In d matches /\ f d = Raise e.
Proof.
  induction matches as [| d rest IH]; simpl; intros acc e H; [discriminate |].
  apply bind_Raise in H. destruct H as [H | (x & _ & H)].
  - exists d. auto.
  - destruct (IH _ _ H) as (d' & Hin & Hd'). eauto.
Qed.

Lemma collect_dates_Raise (fmt yearPrefix : str) (r : Re.re)
  (lines : list str) :
  forall acc e,
    collect_dates fmt yearPrefix r acc lines = Raise e ->
    exists d, date_of_match fmt yearPrefix d = Raise e.
Proof.
  induction lines as [| line rest IH]; simpl; intros acc e H; [discriminate |].
  apply bind_Raise in H. destruct H as [H | (mid & _ & H)].
  - apply extend_Raise_at in H. destruct H as (d & _ & Hd). eauto.
  - eapply IH; eauto.
Qed.

Lemma max_Raise_kind (dates : list datetime) (e : exn) :
  Datetime.max dates = Raise e -> e = ValueError.
Proof. destruct dates; simpl; congruence. Qed.

Lemma extractDate_no_delim (v : Vendor) (now_year : Z) (lines : list str) :
  List.find is_delim (dateFormat v) = None ->
  extractDate v now_year lines = Raise AttributeError.
Proof.
  intros H. unfold extractDate, dates_of, date_regex, dateDelim_of.
  now rewrite H.
Qed.

Lemma extractDate_Raise_kind (v : Vendor) (now_year : Z) (lines : list str)
  (e : exn) :
  List.find is_delim (dateFormat v) <> None ->
  extractDate v now_year lines = Raise e ->
  e = ValueError \/ e = OverflowError.
Proof.
  intros Hdl H.
  destruct (List.find is_delim (dateFormat v)) as [dl |] eqn:E;
    [clear Hdl | contradiction].
  unfold extractDate in H. apply bind_Raise in H.
  destruct H as [H | (ds & _ & H)];
    [| left; eapply max_Raise_kind; eauto].
  rewrite dates_of_eq, (date_regex_text _ _ E),
    (date_pattern_skeleton _ _ E) in H.
  apply collect_dates_Raise in H. destruct H as (d & H).
  eapply date_of_match_Raise; eauto.
Qed.

(** X2. A vendor whose date format has none of [/], [-] and [.] gets
    [AttributeError] from [extractDate] and from the construction of the
    [Order], whatever the document. With a delimiter in the format, both
    raise nothing but [ValueError] and [OverflowError]: the [reduce] over
    the parts of the pattern never meets an empty format, and no index is
    out of range. *)
Theorem Order_raises_only (v : Vendor) (now_year : Z) (textLines : list str) :
  (List.find is_delim (dateFormat v) = None ->
   extractDate v now_year textLines = Raise AttributeError
   /\ Order_init v now_year textLines = Raise AttributeError)
  /\ (List.find is_delim (dateFormat v) <> None ->
      forall e,
        (extractDate v now_year textLines = Raise e ->
         e = ValueError \/ e = OverflowError)
        /\ (Order_init v now_year textLines = Raise e ->
            e = ValueError \/ e = OverflowError)).
Proof.
  split.
  - intros H. pose proof (extractDate_no_delim v now_year textLines H) as Hd.
    split; [exact Hd |]. unfold Order_init. now rewrite Hd.
  - intros Hdl e. split; [now apply extractDate_Raise_kind |].
    unfold Order_init. intros H.
    apply bind_Raise in H. destruct H as [H | (d & _ & H)];
      [eapply extractDate_Raise_kind; eauto |].
    apply bind_Raise in H. destruct H as [H | (its & _ & H)]; [| discriminate].
    unfold extractItems in H. apply extractItems_from_Raise in H.
    destruct H as (line & items' & _ & H).
    now apply extractItems_line_Raise in H.
Qed.

(** The witness of X2: a format without a delimiter, and Screwfix on a
    document without a date. *)
Lemma Order_raises_only_witness :
  Order_init
    {| vendor_name := lit "Vendor"; dateFormat := lit "DDMMYYYY";
       itemRegex := Re.Eps; itemNameOffsetIndex := 0;
       unitsOffsetIndex := 0; unitCostOffsetIndex := 0 |}
    2026 [lit "01022023"]
  = Raise AttributeError
  /\ (ValueError = ValueError \/ ValueError = OverflowError).
Proof.
  split.
  - apply (proj1 (Order_raises_only _ 2026 [lit "01022023"])). reflexivity.
  - apply (proj2 (Order_raises_only VendorList.SCREWFIX 2026 [lit "no date"])
             ltac:(vm_compute; discriminate) ValueError).
    vm_compute. reflexivity.
Defined.

(** ** Lines that the validator rejects *)

Lemma isValidItem_false (v : Vendor) (o : Z) :
  ~ offsets_in_window o (itemNameOffsetIndex v) (unitsOffsetIndex v)
      (unitCostOffsetIndex v) ->
  isValidItem v o = false.
Proof.
  intros H. destruct (isValidItem v o) eqn:E; [| reflexivity].
  apply isValidItem_true in E. contradiction.
Qed.

Lemma isValidItem_of_window (v : Vendor) (o : Z) :
  offsets_in_window o (itemNameOffsetIndex v) (unitsOffsetIndex v)
    (unitCostOffsetIndex v) ->
  isValidItem v o = true.
Proof.
  unfold isValidItem, offsets_in_window. rewrite !Z.gtb_ltb. intros H.
  repeat match goal with
         | |- context [?a <? ?b] => destruct (Z.ltb_spec a b)
         end; try reflexivity; lia.
Qed.

Lemma extractItems_line_invalid (v : Vendor) (items : list Item) (line : str) :
  isValidItem v (offsetStart_of line) = false ->
  extractItems_line v items line = Ok items.
Proof.
  intros H. apply extractItems_line_skip. unfold candidateb.
  rewrite H. apply andb_false_r.
Qed.

Lemma extractItems_from_all_skipped (v : Vendor) (lines : list str) :
  Forall (fun line => candidateb v line = false) lines ->
  forall items, extractItems_from v items lines = Ok items.
Proof.
  induction 1 as [| line rest Hline _ IH]; intros items; simpl;
    [reflexivity |].
  rewrite (extractItems_line_skip v items line Hline). simpl. apply IH.
Qed.

(** X3. A line with too few words for one of the offsets, [len(words) <=
    -offset], is passed over without an error whatever it holds, and a
    vendor one of whose offsets is positive gets no item and no error from
    any document. A line that is accepted stays accepted with more
    words. *)
Theorem rejected_lines_are_skipped (v : Vendor) :
  (forall (items : list Item) (line : str),
      len (words_of line) <= - itemNameOffsetIndex v
      \/ len (words_of line) <= - unitsOffsetIndex v
      \/ len (words_of line) <= - unitCostOffsetIndex v ->
      extractItems_line v items line = Ok items)
  /\ (0 < itemNameOffsetIndex v \/ 0 < unitsOffsetIndex v
      \/ 0 < unitCostOffsetIndex v ->
      forall textLines, extractItems v textLines = Ok [])
  /\ (forall o o' : Z,
         o <= o' -> isValidItem v o = true -> isValidItem v o' = true).
Proof.
  split; [| split].
  - intros items line H. apply extractItems_line_invalid.
    apply isValidItem_false. unfold offsets_in_window, offsetStart_of. lia.
  - intros H lines. unfold extractItems.
    apply extractItems_from_all_skipped. apply Forall_forall. intros line _.
    unfold candidateb. rewrite isValidItem_false; [apply andb_false_r |].
    unfold offsets_in_window. lia.
  - intros o o' Hle Hv. apply isValidItem_true in Hv.
    apply isValidItem_of_window. unfold offsets_in_window in *. lia.
Qed.

(** The witness of X3: a Screwfix line of seven words. *)
Lemma rejected_lines_are_skipped_witness :
  len (words_of (lit "123AB 10 units stuff BOX 5 1.20"))
  <= - itemNameOffsetIndex VendorList.SCREWFIX
  /\ extractItems_line VendorList.SCREWFIX []
       (lit "123AB 10 units stuff BOX 5 1.20") = Ok [].
Proof.
  split; [vm_compute; discriminate |].
  apply (proj1 (rejected_lines_are_skipped VendorList.SCREWFIX)).
  left. vm_compute. discriminate.
Defined.

(** ** Extraction line by line *)

Lemma extractItems_from_acc (v : Vendor) (lines : list str) :
  forall items,
    extractItems_from v items lines
    = (found <- extractItems_from v [] lines ;; Ok (items ++ found)).
Proof.
  induction lines as [| line rest IH]; intros items; simpl.
  - now rewrite app_nil_r.
  - rewrite (extractItems_line_acc v items line).
    destruct (extractItems_line v [] line) as [found |]; simpl; [| reflexivity].
    rewrite (IH (items ++ found)), (IH found).
    destruct (extractItems_from v [] rest) as [more |]; simpl; [| reflexivity].
    now rewrite app_assoc.
Qed.

Lemma extractItems_from_app (v : Vendor) (l1 l2 : list str) :
  forall items,
    extractItems_from v items (l1 ++ l2)
    = (mid <- extractItems_from v items l1 ;; extractItems_from v mid l2).
Proof.
  induction l1 as [| line rest IH]; intros items; simpl; [reflexivity |].
  destruct (extractItems_line v items line) as [mid |]; simpl;
    [apply IH | reflexivity].
Qed.

(** X4. The items of a document are the items of its first part followed
    by the items of the rest, and its error is the first error of the
    parts: what a line gives does not depend on the lines before it. *)
Theorem extractItems_app (v : Vendor) (lines1 lines2 : list str) :
  extractItems v (lines1 ++ lines2)
  = (items1 <- extractItems v lines1 ;;
     items2 <- extractItems v lines2 ;;
     Ok (items1 ++ items2)).
Proof.
  unfold extractItems. rewrite extractItems_from_app.
  destruct (extractItems_from v [] lines1) as [items1 |]; simpl;
    [| reflexivity].
  apply extractItems_from_acc.
Qed.

Lemma extractItems_from_filter (v : Vendor) (lines : list str) :
  forall items,
    extractItems_from v items lines
    = extractItems_from v items (filter (candidateb v) lines).
Proof.
  induction lines as [| line rest IH]; intros items; simpl; [reflexivity |].
  destruct (candidateb v line) eqn:E; simpl.
  - destruct (extractItems_line v items line); simpl; [apply IH | reflexivity].
  - rewrite (extractItems_line_skip v items line E). simpl. apply IH.
Qed.

Lemma extractItems_line_count (v : Vendor) (items items' : list Item)
  (line : str) :
  extractItems_line v items line = Ok items' ->
  (List.length items' <= S (List.length items))%nat.
Proof.
  rewrite extractItems_line_acc. intros H.
  apply bind_Ok in H. destruct H as (found & Hf & H). injection H as <-.
  rewrite length_app.
  assert (List.length found <= 1)%nat; [| lia].
  destruct (candidateb v line) eqn:E;
    [| rewrite (extractItems_line_skip v [] line E) in Hf;
       injection Hf as <-; simpl; lia].
  apply candidateb_true in E.
  destruct (candidate_tokens v line E) as (u & c & Hu & Hc).
  rewrite (extractItems_line_candidate v [] line E),
    (extractFields_eq v [] line u c Hu Hc) in Hf.
  destruct (len (split "." c) >? 1); [| injection Hf as <-; simpl; lia].
  apply bind_Ok in Hf. destruct Hf as (uc & _ & Hf).
  apply bind_Ok in Hf. destruct Hf as (it & _ & Hf).
  injection Hf as <-. simpl. lia.
Qed.

Lemma extractItems_from_count (v : Vendor) (lines : list str) :
  forall items items',
    extractItems_from v items lines = Ok items' ->
    (List.length items' <= List.length items + List.length lines)%nat.
Proof.
  induction lines as [| line rest IH]; simpl; intros items items' H.
  - injection H as <-. lia.
  - apply bind_Ok in H. destruct H as (mid & Hmid & H).
    apply IH in H. apply extractItems_line_count in Hmid. lia.
Qed.

(** X5. Only the lines that the pattern matches and that [isValidItem]
    accepts count: the extraction from a document is the extraction from
    these lines alone, items and error alike, and there is at most one
    item for each of them. *)
Theorem extractItems_filter (v : Vendor) (textLines : list str) :
  extractItems v textLines
  = extractItems v (filter (candidateb v) textLines)
  /\ forall its,
      extractItems v textLines = Ok its ->
      (List.length its <= List.length (filter (candidateb v) textLines))%nat.
Proof.
  split; [apply extractItems_from_filter |].
  intros its H. unfold extractItems in H.
  rewrite extractItems_from_filter in H.
  apply extractItems_from_count in H. simpl in H. exact H.
Qed.

(** The witness of X5: of three lines, one is an item line. *)
Lemma extractItems_filter_witness :
  exists its,
    extractItems VendorList.TOOLSTATION
      [lit "Invoice"; lit "12345 Box of screws 5 1.20"; lit "00006 Delivery"]
    = Ok its
    /\ (List.length its <= 1)%nat.
Proof.
  eexists. split; [vm_compute; reflexivity |].
  apply (proj2 (extractItems_filter VendorList.TOOLSTATION
                  [lit "Invoice"; lit "12345 Box of screws 5 1.20";
                   lit "00006 Delivery"])).
  vm_compute. reflexivity.
Defined.

(** ** The date of a document and of its parts *)

Lemma le_antisym (a b : datetime) :
  Datetime.le a b -> Datetime.le b a -> a = b.
Proof.
  destruct a as [ya ma da], b as [yb mb db]. intros H1 H2.
  assert (ya = yb /\ ma = mb /\ da = db) as (-> & -> & ->);
    [| reflexivity].
  order_cases.
Qed.

Lemma latest_unique (a b : datetime) (dates : list datetime) :
  latest a dates -> latest b dates -> a = b.
Proof.
  intros [Ha Hla] [Hb Hlb]. apply le_antisym; auto.
Qed.

Lemma latest_perm (a : datetime) (l l' : list datetime) :
  Permutation l l' -> latest a l -> latest a l'.
Proof.
  intros Hp [Hin Hle]. split.
  - eapply Permutation_in; eauto.
  - intros x Hx. apply Hle. eapply Permutation_in; [| exact Hx].
    now apply Permutation_sym.
Qed.

Lemma all_matches_app (fmt : str) (l1 l2 : list str) :
  all_matches fmt (l1 ++ l2) = all_matches fmt l1 ++ all_matches fmt l2.
Proof.
  unfold all_matches. destruct (date_pattern fmt); [| reflexivity].
  apply flat_map_app.
Qed.

Lemma all_matches_perm (fmt : str) (l l' : list str) :
  Permutation l l' -> Permutation (all_matches fmt l) (all_matches fmt l').
Proof.
  intros Hp. unfold all_matches. destruct (date_pattern fmt); [| constructor].
  now apply Permutation_flat_map.
Qed.

Lemma extractDate_Raise_parsed (v : Vendor) (now_year : Z) (lines : list str)
  (e : exn) :
  extractDate v now_year lines = Raise e ->
  parsed_dates (dateFormat v) now_year lines = []
  \/ Exists
       (fun d => is_ok (date_of_match (dateFormat v)
                          (yearPrefix_of (dateFormat v) now_year) d) = false)
       (all_matches (dateFormat v) lines).
Proof.
  unfold extractDate. intros H. apply bind_Raise in H.
  destruct H as [H | (ds & Hds & H)].
  - apply dates_of_Raise in H. destruct H as [H | H]; [left | now right].
    unfold parsed_dates. now rewrite H.
  - left. assert (ds = []) by (apply max_Raise; now rewrite H). subst ds.
    apply dates_of_Ok in Hds. inversion Hds as [Hm |].
    unfold parsed_dates. now rewrite <- Hm.
Qed.

(** When every match parses and there is one, a date is resolved. *)
Lemma extractDate_total (v : Vendor) (now_year : Z) (lines : list str) :
  Forall
    (fun d => is_ok (date_of_match (dateFormat v)
                       (yearPrefix_of (dateFormat v) now_year) d) = true)
    (all_matches (dateFormat v) lines) ->
  parsed_dates (dateFormat v) now_year lines <> [] ->
  exists dt, extractDate v now_year lines = Ok dt
             /\ latest dt (parsed_dates (dateFormat v) now_year lines).
Proof.
  intros Hall Hne.
  destruct (extractDate v now_year lines) as [dt | e] eqn:E.
  - exists dt. split; [reflexivity |].
    apply extractDate_Ok in E. now destruct E as (ds & _ & -> & _ & Hl).
  - apply extractDate_Raise_parsed in E. destruct E as [E | E];
      [contradiction | exfalso; exact (Forall_Exists_false _ _ Hall E)].
Qed.

Lemma extractDate_perm_Ok (v : Vendor) (now_year : Z) (lines lines' : list str)
  (dt : datetime) :
  Permutation lines lines' ->
  extractDate v now_year lines = Ok dt ->
  extractDate v now_year lines' = Ok dt.
Proof.
  intros Hp H. apply extractDate_Ok in H.
  destruct H as (ds & _ & -> & Hall & Hlatest).
  pose proof (all_matches_perm (dateFormat v) _ _ Hp) as Hm.
  assert (Hpp : Permutation (parsed_dates (dateFormat v) now_year lines)
                  (parsed_dates (dateFormat v) now_year lines')).
  { unfold parsed_dates, parsed. now apply Permutation_flat_map. }
  destruct (extractDate_total v now_year lines') as (dt' & Hdt' & Hl').
  - eapply Permutation_Forall; eauto.
  - intros Hnil. rewrite Hnil in Hpp. apply Permutation_sym, Permutation_nil in Hpp.
    destruct Hlatest as [Hin _]. rewrite Hpp in Hin. contradiction.
  - rewrite Hdt'. f_equal.
    eapply latest_unique; [exact Hl' | eapply latest_perm; eauto].
Qed.

(** X6. The resolved date does not depend on the order of the lines: a
    document and a rearrangement of its lines resolve to the same date, or
    both fail. *)
Theorem extractDate_permutation (v : Vendor) (now_year : Z)
  (textLines textLines' : list str) :
  Permutation textLines textLines' ->
  is_ok (extractDate v now_year textLines)
  = is_ok (extractDate v now_year textLines')
  /\ forall dt,
      extractDate v now_year textLines = Ok dt ->
      extractDate v now_year textLines' = Ok dt.
Proof.
  intros Hp. split; [| intros dt; now apply extractDate_perm_Ok].
  destruct (extractDate v now_year textLines) as [dt |] eqn:E.
  - now rewrite (extractDate_perm_Ok v now_year _ _ dt Hp E).
  - destruct (extractDate v now_year textLines') as [dt' |] eqn:E';
      [| reflexivity].
    apply (extractDate_perm_Ok v now_year _ _ dt' (Permutation_sym Hp)) in E'.
    congruence.
Qed.

(** The witness of X6: two lines, swapped. *)
Lemma extractDate_permutation_witness :
  Permutation [lit "Ordered 01/02/2023"; lit "Delivered 15/03/2023"]
    [lit "Delivered 15/03/2023"; lit "Ordered 01/02/2023"]
  /\ extractDate VendorList.SCREWFIX 2026
       [lit "Delivered 15/03/2023"; lit "Ordered 01/02/2023"]
     = Ok {| year := 2023; month := 3; day := 15 |}.
Proof.
  assert (Hp : Permutation
                 [lit "Ordered 01/02/2023"; lit "Delivered 15/03/2023"]
                 [lit "Delivered 15/03/2023"; lit "Ordered 01/02/2023"])
    by apply perm_swap.
  split; [exact Hp |].
  apply (proj2 (extractDate_permutation VendorList.SCREWFIX 2026 _ _ Hp)).
  vm_compute. reflexivity.
Defined.

Lemma parsed_dates_app (fmt : str) (now_year : Z) (l1 l2 : list str) :
  parsed_dates fmt now_year (l1 ++ l2)
  = parsed_dates fmt now_year l1 ++ parsed_dates fmt now_year l2.
Proof.
  unfold parsed_dates, parsed. rewrite all_matches_app. apply flat_map_app.
Qed.

(** X7. More text never makes the date earlier: when a part of a document
    resolves to a date and the whole document resolves to a date, the date
    of the whole is that of the part or a later one. *)
Theorem extractDate_monotone (v : Vendor) (now_year : Z)
  (before part after : list str) (d1 d2 : datetime) :
  extractDate v now_year part = Ok d1 ->
  extractDate v now_year (before ++ part ++ after) = Ok d2 ->
  Datetime.le d1 d2.
Proof.
  intros H1 H2.
  apply extractDate_Ok in H1. destruct H1 as (ds1 & _ & -> & _ & Hin1 & _).
  apply extractDate_Ok in H2. destruct H2 as (ds2 & _ & -> & _ & _ & Hle2).
  apply Hle2. rewrite !parsed_dates_app.
  apply in_or_app. right. apply in_or_app. now left.
Qed.

(** The witness of X7: a delivery note after the order. *)
Lemma extractDate_monotone_witness :
  extractDate VendorList.SCREWFIX 2026 [lit "Ordered 01/02/2023"]
  = Ok {| year := 2023; month := 2; day := 1 |}
  /\ Datetime.le {| year := 2023; month := 2; day := 1 |}
       {| year := 2023; month := 3; day := 15 |}.
Proof.
  split; [vm_compute; reflexivity |].
  apply (extractDate_monotone VendorList.SCREWFIX 2026
           [lit "Invoice"] [lit "Ordered 01/02/2023"]
           [lit "Delivered 15/03/2023"]);
    vm_compute; reflexivity.
Defined.

(** ** The resolved date is a date printed in the document *)

Lemma make_calendar (y m d : Z) (x : datetime) :
  Datetime.make y m d = Ok x -> calendar_date x.
Proof.
  unfold Datetime.make, calendar_date. intros H.
  destruct (negb _); [discriminate |].
  destruct (_ && _) eqn:E; [| discriminate].
  injection H as <-. simpl.
  repeat (apply andb_true_iff in E; destruct E as [E ?]).
  rewrite !Z.leb_le in *. lia.
Qed.

Lemma date_of_match_calendar (fmt yearPrefix d : str) (x : datetime) :
  date_of_match fmt yearPrefix d = Ok x -> calendar_date x.
Proof.
  unfold date_of_match. intros H.
  apply bind_Ok in H. destruct H as (y & _ & H).
  apply bind_Ok in H. destruct H as (m & _ & H).
  apply bind_Ok in H. destruct H as (dd & _ & H).
  eapply make_calendar; eauto.
Qed.

Lemma occurs_cons (d s : str) (c : ascii) : occurs d s -> occurs d (c :: s).
Proof.
  intros (pre & post & ->). exists (c :: pre), post. reflexivity.
Qed.

(** Every match that [findall] returns is a piece of the line. *)
Lemma scan_occurs (r : Re.re) (s : str) :
  forall (pos skip : nat) (d : str),
    In d (Re.scan r pos s skip) -> occurs d s.
Proof.
  induction s as [| c s IH]; intros pos skip d Hin.
  - simpl in Hin. destruct skip; [| contradiction].
    destruct (Re.match_len r pos []); [| contradiction].
    destruct Hin as [<- | []]. exists [], []. reflexivity.
  - simpl in Hin. destruct skip as [| k];
      [| apply occurs_cons; eapply IH; eauto].
    destruct (Re.match_len r pos (c :: s)) as [n |];
      [| apply occurs_cons; eapply IH; eauto].
    destruct Hin as [<- | Hin]; [| apply occurs_cons; eapply IH; eauto].
    exists [], (skipn n (c :: s)). simpl app. now rewrite firstn_skipn.
Qed.

Lemma parsed_In (f : str -> result datetime) (matches : list str)
  (x : datetime) :
  In x (parsed f matches) -> exists d, In d matches /\ f d = Ok x.
Proof.
  unfold parsed. intros H. apply in_flat_map in H.
  destruct H as (d & Hd & H). exists d. split; [exact Hd |].
  destruct (f d) as [y |]; [| contradiction].
  destruct H as [<- | []]. reflexivity.
Qed.

Lemma all_matches_In (fmt : str) (lines : list str) (d : str) :
  In d (all_matches fmt lines) ->
  exists line, In line lines /\ occurs d line
               /\ List.length d = List.length fmt.
Proof.
  intros Hin.
  destruct (all_matches_follow fmt lines d Hin) as (dl & Hdl & Hf).
  unfold all_matches in Hin. rewrite (date_pattern_skeleton fmt dl Hdl) in Hin.
  apply in_flat_map in Hin. destruct Hin as (line & Hline & Hin).
  exists line. split; [exact Hline |].
  split; [eapply scan_occurs; exact Hin | now apply follows_length in Hf].
Qed.

(** X8. The date that [extractDate] resolves is a date of the calendar,
    with its year in 1 .. 9999, and it is printed in the document: some
    line holds a piece of text as long as the format, in the shape of the
    format, that reads as this date. *)
Theorem extractDate_printed (v : Vendor) (now_year : Z) (textLines : list str)
  (dt : datetime) :
  extractDate v now_year textLines = Ok dt ->
  calendar_date dt
  /\ exists line d dateDelim,
      In line textLines /\ occurs d line
      /\ List.find is_delim (dateFormat v) = Some dateDelim
      /\ follows dateDelim (dateFormat v) d
      /\ date_of_match (dateFormat v)
           (yearPrefix_of (dateFormat v) now_year) d = Ok dt.
Proof.
  intros H. apply extractDate_Ok in H.
  destruct H as (ds & _ & -> & _ & Hin & _).
  apply parsed_In in Hin. destruct Hin as (d & Hd & Hdt).
  split; [eapply date_of_match_calendar; eauto |].
  destruct (all_matches_follow _ _ _ Hd) as (dl & Hdl & Hf).
  destruct (all_matches_In _ _ _ Hd) as (line & Hline & Hocc & _).
  exists line, d, dl. auto.
Qed.

(** The witness of X8: the date of a delivery line. *)
Lemma extractDate_printed_witness :
  extractDate VendorList.SCREWFIX 2026 [lit "Delivered 15/03/2023"]
  = Ok {| year := 2023; month := 3; day := 15 |}
  /\ calendar_date {| year := 2023; month := 3; day := 15 |}.
Proof.
  assert (H : extractDate VendorList.SCREWFIX 2026 [lit "Delivered 15/03/2023"]
              = Ok {| year := 2023; month := 3; day := 15 |})
    by (vm_compute; reflexivity).
  split; [exact H |].
  exact (proj1 (extractDate_printed _ _ _ _ H)).
Defined.

(** ** Documents without room for a date *)

Lemma match_len_short (dl : ascii) (fmt s : str) (pos : nat) :
  (List.length s < List.length fmt)%nat ->
  Re.match_len (skeleton dl fmt) pos s = None.
Proof.
  intros Hlt. destruct (Re.match_len (skeleton dl fmt) pos s) as [n |] eqn:E;
    [| reflexivity].
  apply match_len_skeleton in E. destruct E as (_ & s1 & s2 & -> & Hf).
  apply follows_length in Hf. rewrite length_app in Hlt. lia.
Qed.

Lemma scan_short (dl : ascii) (fmt s : str) :
  (List.length s < List.length fmt)%nat ->
  forall pos skip, Re.scan (skeleton dl fmt) pos s skip = [].
Proof.
  induction s as [| c s IH]; intros Hlt pos skip; simpl.
  - destruct skip; [| reflexivity].
    now rewrite (match_len_short dl fmt [] pos Hlt).
  - destruct skip as [| k]; [| apply IH; simpl in Hlt; lia].
    rewrite (match_len_short dl fmt (c :: s) pos Hlt).
    apply IH. simpl in Hlt. lia.
Qed.

Lemma all_matches_short (fmt : str) (lines : list str) :
  Forall (fun line => (List.length line < List.length fmt)%nat) lines ->
  all_matches fmt lines = [].
Proof.
  intros Hall. unfold all_matches.
  destruct (List.find is_delim fmt) as [dl |] eqn:E.
  - rewrite (date_pattern_skeleton fmt dl E).
    induction Hall as [| line rest Hline _ IH]; [reflexivity |].
    simpl. rewrite IH. unfold Re.findall.
    now rewrite (scan_short dl fmt line Hline).
  - unfold date_pattern, date_regex, dateDelim_of. now rewrite E.
Qed.

(** X9. A document all of whose lines are shorter than the date format,
    and so the empty document, has no date: [extractDate] raises, and no
    [Order] is built, whatever items the lines hold. *)
Theorem no_room_for_a_date (v : Vendor) (now_year : Z) (textLines : list str) :
  Forall
    (fun line => (List.length line < List.length (dateFormat v))%nat)
    textLines ->
  is_ok (extractDate v now_year textLines) = false
  /\ is_ok (Order_init v now_year textLines) = false.
Proof.
  intros Hall.
  assert (H : is_ok (extractDate v now_year textLines) = false).
  { destruct (extractDate v now_year textLines) as [dt |] eqn:E;
      [| reflexivity].
    apply extractDate_Ok in E. destruct E as (ds & _ & -> & _ & Hin & _).
    unfold parsed_dates in Hin.
    rewrite (all_matches_short _ _ Hall) in Hin. contradiction. }
  split; [exact H |]. unfold Order_init.
  now destruct (extractDate v now_year textLines).
Qed.

(** The witness of X9: an item line and nothing else. *)
Lemma no_room_for_a_date_witness :
  Forall
    (fun line =>
       (List.length line
        < List.length (dateFormat VendorList.TOOLSTATION))%nat)
    [lit "1 b 2 1.2"]
  /\ is_ok (Order_init VendorList.TOOLSTATION 2026 [lit "1 b 2 1.2"]) = false.
Proof.
  assert (H : Forall
                (fun line =>
                   (List.length line
                    < List.length (dateFormat VendorList.TOOLSTATION))%nat)
                [lit "1 b 2 1.2"])
    by (constructor; [vm_compute; lia | constructor]).
  split; [exact H |].
  exact (proj2 (no_room_for_a_date VendorList.TOOLSTATION 2026 _ H)).
Defined.

(** ** The types of the file arguments *)

Lemma after_prefix_app (p rest : str) : after_prefix p (p ++ rest) = Some rest.
Proof.
  induction p as [| a p IH]; simpl; [now destruct rest |].
  now rewrite Ascii.eqb_refl.
Qed.

Lemma after_prefix_Some (p s rest : str) :
  after_prefix p s = Some rest -> s = p ++ rest.
Proof.
  revert s. induction p as [| a p IH]; intros s H.
  - destruct s; simpl in H; now injection H as <-.
  - destruct s as [| b s]; simpl in H; [discriminate |].
    destruct (Ascii.eqb_spec a b) as [-> | _]; [| discriminate].
    simpl. f_equal. now apply IH.
Qed.

Lemma at_dollar_true (s : str) :
  at_dollar s = true <-> s = [] \/ s = ["010"%char].
Proof.
  unfold at_dollar. split.
  - destruct s as [| c s]; [now left |].
    destruct c as [[] [] [] [] [] [] [] []]; destruct s; intros H;
      try discriminate.
    now right.
  - intros [-> | ->]; reflexivity.
Qed.

(** The search finds the literal at the end of the string, or before the
    line feed that ends it. *)
Lemma search_at_end_true (p s : str) :
  search_at_end p s = true
  <-> exists pre, s = pre ++ p \/ s = pre ++ p ++ ["010"%char].
Proof.
  induction s as [| c s IH].
  - simpl. rewrite orb_false_r. split.
    + destruct (after_prefix p []) as [rest |] eqn:E; [| discriminate].
      intros H. apply after_prefix_Some in E. apply at_dollar_true in H.
      exists []. simpl.
      destruct H as [-> | ->];
        [left; now rewrite app_nil_r in E | right; exact E].
    + intros (pre & [H | H]); symmetry in H.
      * apply app_eq_nil in H. destruct H as [_ ->]. reflexivity.
      * apply app_eq_nil in H. destruct H as [_ H].
        apply app_eq_nil in H. destruct H as [_ H]. discriminate.
  - simpl. rewrite orb_true_iff, IH. split.
    + intros [H | (pre & H)].
      * destruct (after_prefix p (c :: s)) as [rest |] eqn:E; [| discriminate].
        apply after_prefix_Some in E. apply at_dollar_true in H.
        exists []. simpl. rewrite E.
        destruct H as [-> | ->];
          [left; now rewrite app_nil_r | right; reflexivity].
      * exists (c :: pre). simpl. destruct H as [-> | ->]; auto.
    + intros (pre & H). destruct pre as [| c' pre].
      * left. simpl in H.
        destruct H as [-> | ->];
          [rewrite <- (app_nil_r p) at 2 | ];
          rewrite after_prefix_app; reflexivity.
      * right. exists pre. simpl in H.
        destruct H as [H | H]; injection H as _ ->; auto.
Qed.

(** X10. [PDFFileType] accepts a path, and returns it unchanged, exactly
    when the path ends with [.pdf] or with [.pdf] and one line feed; any
    other path, such as one that ends with [.PDF] or with [.pdf] and a
    space, is refused with the message [<path> must be a .pdf file.].
    [CSVFileType] does the same for [.csv]. *)
Theorem file_types_accept (v : str) :
  (PDFFileType v = Accepted v
   <-> exists pre, v = pre ++ lit ".pdf"
                   \/ v = pre ++ lit ".pdf" ++ ["010"%char])
  /\ (PDFFileType v = Accepted v
      \/ PDFFileType v = ArgumentTypeError (v ++ lit " must be a .pdf file."))
  /\ (CSVFileType v = Accepted v
      <-> exists pre, v = pre ++ lit ".csv"
                      \/ v = pre ++ lit ".csv" ++ ["010"%char])
  /\ (CSVFileType v = Accepted v
      \/ CSVFileType v = ArgumentTypeError (v ++ lit " must be a .csv file.")).
Proof.
  unfold PDFFileType, CSVFileType.
  rewrite <- !search_at_end_true.
  destruct (search_at_end (lit ".pdf") v), (search_at_end (lit ".csv") v);
    simpl; repeat split; intros; try discriminate; auto.
Qed.

(** ** The files of the page splitter *)

Lemma uint_digits (u : Decimal.uint) :
  Forall (fun c => is_digit c = true)
    (list_ascii_of_string (NilEmpty.string_of_uint u)).
Proof.
  induction u; simpl; constructor; auto.
Qed.

Lemma str_of_int_digits (n : Z) :
  0 <= n ->
  str_of_int n <> [] /\ Forall (fun c => is_digit c = true) (str_of_int n).
Proof.
  intros Hn. unfold str_of_int. destruct n as [| p | p]; [| | lia].
  - simpl. split; [discriminate | repeat constructor].
  - simpl Z.to_int. simpl NilZero.string_of_int.
    pose proof (Unsigned.to_uint_nonnil p) as Hnil.
    pose proof (uint_digits (Pos.to_uint p)) as Hd.
    destruct (Pos.to_uint p); try contradiction; simpl in *;
      (split; [discriminate | exact Hd]).
Qed.

Lemma to_int_not_nil (n : Z) :
  Z.to_int n <> Decimal.Pos Decimal.Nil /\ Z.to_int n <> Decimal.Neg Decimal.Nil.
Proof.
  destruct n as [| p | p]; simpl; split; try discriminate;
    intros [= H]; exact (Unsigned.to_uint_nonnil p H).
Qed.

Lemma str_of_int_inj (a b : Z) : str_of_int a = str_of_int b -> a = b.
Proof.
  unfold str_of_int. intros H.
  apply (f_equal string_of_list_ascii) in H.
  rewrite !string_of_list_ascii_of_string in H.
  apply (f_equal NilZero.int_of_string) in H.
  destruct (to_int_not_nil a) as [Ha1 Ha2].
  destruct (to_int_not_nil b) as [Hb1 Hb2].
  rewrite !NilZero.isi in H by assumption.
  injection H as H. now apply DecimalZ.to_int_inj.
Qed.

Lemma last_app_nonempty {A : Type} (l1 l2 : list A) (d : A) :
  l2 <> [] -> last (l1 ++ l2) d = last l2 d.
Proof.
  intros Hne. induction l1 as [| a l1 IH]; [reflexivity |].
  simpl. destruct (l1 ++ l2) eqn:E; [| exact IH].
  apply app_eq_nil in E. destruct E as [_ E]. contradiction.
Qed.

Lemma last_Forall {A : Type} (P : A -> Prop) (l : list A) (d : A) :
  l <> [] -> Forall P l -> P (last l d).
Proof.
  intros Hne Hall. rewrite Forall_forall in Hall. apply Hall.
  destruct l as [| a l]; [contradiction |].
  rewrite (app_removelast_last d Hne) at 2. apply in_or_app. right. now left.
Qed.

Lemma path_ends_with_digit (input : str) (i : nat) :
  is_digit (last (input ++ lit "-" ++ str_of_int (Z.of_nat i)) "000"%char)
  = true.
Proof.
  destruct (str_of_int_digits (Z.of_nat i)) as [Hne Hd]; [lia |].
  rewrite app_assoc, last_app_nonempty by exact Hne.
  now apply last_Forall.
Qed.

(** X11. For a PDF of [n] pages the splitter writes [n] files, at paths
    that differ from one another and from the path of the input. Each
    path ends with a digit, so that [PDFFileType] refuses every one of
    them: a page that the splitter wrote is not accepted as [--input_pdf]
    under the name it was given. *)
Theorem split_paths_distinct (input_pdf_path : str) (pages : nat) :
  List.length (split_paths input_pdf_path pages) = pages
  /\ NoDup (split_paths input_pdf_path pages)
  /\ ~ In input_pdf_path (split_paths input_pdf_path pages)
  /\ Forall
       (fun path =>
          PDFFileType path
          = ArgumentTypeError (path ++ lit " must be a .pdf file."))
       (split_paths input_pdf_path pages).
Proof.
  unfold split_paths. split; [now rewrite length_map, length_seq |].
  split; [| split].
  - apply NoDup_map_NoDup_ForallPairs; [| apply seq_NoDup].
    intros i j _ _ H. apply app_inv_head in H. apply app_inv_head in H.
    apply str_of_int_inj in H. lia.
  - intros H. apply in_map_iff in H. destruct H as (i & H & _).
    apply (f_equal (@List.length ascii)) in H.
    rewrite !length_app in H. simpl in H. lia.
  - apply Forall_forall. intros path H. apply in_map_iff in H.
    destruct H as (i & <- & _). unfold PDFFileType.
    destruct (search_at_end (lit ".pdf") _) eqn:E; [| reflexivity].
    exfalso. apply search_at_end_true in E. destruct E as (pre & E).
    pose proof (path_ends_with_digit input_pdf_path i) as Hd.
    destruct E as [E | E]; rewrite E in Hd.
    + rewrite last_app_nonempty in Hd by discriminate. discriminate.
    + rewrite app_assoc, last_app_nonempty in Hd by discriminate.
      discriminate.
Qed.

(** ** The lines of the pages *)







(** ** The item patterns of the two vendors *)

Lemma rep_Some {A : Type} (n : nat) (k : Re.cls) :
  forall (pos : nat) (s : str) (kont : @Re.cont A) (x : A),
    Re.rep n k pos s kont = Some x
    <-> exists a b, s = a ++ b /\ List.length a = n
                    /\ Forall (fun c => Re.cls_ok k c = true) a
                    /\ kont (pos + n)%nat b = Some x.
Proof.
  induction n as [| n IH]; intros pos s kont x; simpl.
  - rewrite Nat.add_0_r. split.
    + intros H. exists [], s. repeat split; [constructor | exact H].
    + intros (a & b & -> & Hlen & _ & H).
      apply length_zero_iff_nil in Hlen. now subst.
  - split.
    + intros H. destruct s as [| c s]; [discriminate |].
      destruct (Re.cls_ok k c) eqn:E; [| discriminate].
      apply IH in H. destruct H as (a & b & -> & Hlen & Hall & H).
      exists (c :: a), b. simpl. rewrite Nat.add_succ_r.
      repeat split; [now f_equal | now constructor | exact H].
    + intros (a & b & -> & Hlen & Hall & H).
      destruct a as [| c a]; [discriminate |].
      inversion Hall as [| ? ? Hc Ha]; subst. simpl. rewrite Hc.
      apply IH. exists a, b. rewrite Nat.add_succ_r in H.
      repeat split; [now injection Hlen | exact Ha | exact H].
Qed.

Lemma literal_Some {A : Type} (p : str) :
  forall (pos : nat) (s : str) (kont : @Re.cont A) (x : A),
    Re.run (literal p) pos s kont = Some x
    <-> exists rest, s = p ++ rest
                     /\ kont (pos + List.length p)%nat rest = Some x.
Proof.
  induction p as [| c p IH]; intros pos s kont x.
  - simpl. rewrite Nat.add_0_r. split; [eauto |].
    now intros (rest & -> & H).
  - simpl literal. simpl Re.run. split.
    + intros H. destruct s as [| a s]; [discriminate |].
      destruct (Ascii.eqb_spec a c) as [-> | _]; [| discriminate].
      apply IH in H. destruct H as (rest & -> & H).
      exists rest. simpl. now rewrite Nat.add_succ_r.
    + intros (rest & -> & H). simpl. rewrite Ascii.eqb_refl.
      apply IH. exists rest. simpl in H. now rewrite Nat.add_succ_r in H.
Qed.

Lemma star_Some {A : Type} (k : Re.cls) (s : str) :
  forall (pos : nat) (kont : @Re.cont A),
    Re.star k pos s kont <> None
    <-> exists a b, s = a ++ b
                    /\ Forall (fun c => Re.cls_ok k c = true) a
                    /\ kont (pos + List.length a)%nat b <> None.
Proof.
  induction s as [| c s IH]; intros pos kont.
  - simpl. split.
    + intros H. exists [], []. simpl. rewrite Nat.add_0_r.
      repeat split; [constructor | exact H].
    + intros (a & b & Hs & _ & H). symmetry in Hs.
      apply app_eq_nil in Hs. destruct Hs as [-> ->].
      simpl in H. now rewrite Nat.add_0_r in H.
  - simpl. destruct (Re.cls_ok k c) eqn:E.
    + destruct (Re.star k (S pos) s kont) as [x |] eqn:Es.
      * split; [intros _ | discriminate].
        assert (Hs : Re.star k (S pos) s kont <> None) by (rewrite Es; discriminate).
        apply IH in Hs. destruct Hs as (a & b & -> & Hall & H).
        exists (c :: a), b. simpl. rewrite Nat.add_succ_r.
        repeat split; [now constructor | exact H].
      * split.
        -- intros H. exists [], (c :: s). simpl. rewrite Nat.add_0_r.
           repeat split; [constructor | exact H].
        -- intros (a & b & Hs & Hall & H). destruct a as [| c' a].
           ++ simpl in Hs, H. subst b. now rewrite Nat.add_0_r in H.
           ++ exfalso. injection Hs as -> ->.
              inversion Hall as [| ? ? _ Ha]; subst.
              assert (Hn : Re.star k (S pos) (a ++ b) kont <> None).
              { apply IH. exists a, b. simpl in H.
                rewrite Nat.add_succ_r in H. auto. }
              now rewrite Es in Hn.
    + split.
      * intros H. exists [], (c :: s). simpl. rewrite Nat.add_0_r.
        repeat split; [constructor | exact H].
      * intros (a & b & Hs & Hall & H). destruct a as [| c' a].
        -- simpl in Hs, H. subst b. now rewrite Nat.add_0_r in H.
        -- injection Hs as -> ->. inversion Hall; subst. congruence.
Qed.

(** [.*] and then a literal finds the literal after any characters that
    are not line feeds. *)
Lemma holds_Some (p : str) (pos : nat) (s : str) :
  Re.run (Re.Seq (Re.Star Re.Dot) (literal p)) pos s (fun _ _ => Some tt)
  <> None
  <-> exists pre post,
      s = pre ++ p ++ post /\ Forall (fun c => c <> "010"%char) pre.
Proof.
  simpl Re.run. rewrite star_Some. split.
  - intros (a & b & -> & Hall & H).
    destruct (Re.run (literal p) _ b _) as [[] |] eqn:E; [| contradiction].
    apply literal_Some in E. destruct E as (rest & -> & _).
    exists a, rest. split; [reflexivity |].
    eapply Forall_impl; [| exact Hall]. simpl. intros c Hc ->. discriminate.
  - intros (pre & post & -> & Hall). exists pre, (p ++ post).
    split; [reflexivity |]. split.
    + eapply Forall_impl; [| exact Hall]. simpl. intros c Hc.
      now destruct (Ascii.eqb_spec c "010"%char).
    + assert (E : Re.run (literal p) (pos + List.length pre) (p ++ post)
                    (fun _ _ => Some tt) = Some tt)
        by (apply literal_Some; eauto).
      rewrite E. discriminate.
Qed.

Lemma holds_occurs (p : str) (pos : nat) (s : str) :
  ~ In "010"%char s ->
  Re.run (Re.Seq (Re.Star Re.Dot) (literal p)) pos s (fun _ _ => Some tt)
  = None
  <-> ~ occurs p s.
Proof.
  intros Hnl. split.
  - intros H (pre & post & Hs).
    assert (Hn : Re.run (Re.Seq (Re.Star Re.Dot) (literal p)) pos s
                   (fun _ _ => Some tt) <> None).
    { apply holds_Some. exists pre, post. split; [exact Hs |].
      apply Forall_forall. intros c Hc ->. apply Hnl. subst s.
      apply in_or_app. now left. }
    contradiction.
  - intros H.
    destruct (Re.run _ pos s (fun _ _ => Some tt)) eqn:E; [| reflexivity].
    exfalso. apply H.
    assert (Hn : Re.run (Re.Seq (Re.Star Re.Dot) (literal p)) pos s
                   (fun _ _ => Some tt) <> None) by (rewrite E; discriminate).
    apply holds_Some in Hn. destruct Hn as (pre & post & -> & _).
    exists pre, post. reflexivity.
Qed.

(** A pattern that starts with [(?=^...)] matches at the start of the line
    or nowhere. *)
Lemma anchored_later (a b : Re.re) (s : str) :
  forall pos,
    Re.search_from (Re.Seq (Re.Ahead (Re.Seq Re.Bol a)) b) (S pos) s = false.
Proof.
  induction s as [| c s IH]; intros pos; simpl; [reflexivity | apply IH].
Qed.

Lemma anchored_search (a b : Re.re) (s : str) :
  Re.search (Re.Seq (Re.Ahead (Re.Seq Re.Bol a)) b) s = true
  <-> Re.run a 0 s (fun _ _ => Some tt) <> None
      /\ Re.run b 0 s (fun pos' _ => Some (pos' - 0)%nat) <> None.
Proof.
  unfold Re.search.
  assert (Hm : Re.match_len (Re.Seq (Re.Ahead (Re.Seq Re.Bol a)) b) 0 s
               = match Re.run a 0 s (fun _ _ => Some tt) with
                 | Some _ => Re.run b 0 s (fun pos' _ => Some (pos' - 0)%nat)
                 | None => None
                 end) by reflexivity.
  destruct s as [| c s]; simpl Re.search_from; rewrite Hm;
    try rewrite anchored_later;
    destruct (Re.run a 0 _ (fun _ _ => Some tt));
    destruct (Re.run b 0 _ _); split; intros H;
    try discriminate; try (destruct H; congruence);
    try (split; discriminate); reflexivity.
Qed.

Lemma code_prefix (digits gap : nat) (s : str) :
  ~ In "010"%char s ->
  Re.run (Re.Seq (Re.Rep digits Re.Digit)
            (Re.Seq (Re.Rep gap Re.Dot) (Re.Cls (Re.Chr " "))))
    0 s (fun _ _ => Some tt) <> None
  <-> item_code digits gap s.
Proof.
  intros Hnl.
  assert (Heq : Re.run (Re.Seq (Re.Rep digits Re.Digit)
                          (Re.Seq (Re.Rep gap Re.Dot) (Re.Cls (Re.Chr " "))))
                  0 s (fun _ _ => Some tt)
                = Re.rep digits Re.Digit 0 s
                    (fun pos1 s1 =>
                       Re.rep gap Re.Dot pos1 s1
                         (fun pos2 s2 =>
                            Re.rep 1 (Re.Chr " ") pos2 s2
                              (fun _ _ => Some tt))))
    by reflexivity.
  rewrite Heq. clear Heq. unfold item_code. split.
  - intros H.
    destruct (Re.rep digits Re.Digit 0 s _) as [[] |] eqn:E; [| contradiction].
    apply rep_Some in E. destruct E as (code & b & -> & Hlen & Hd & E).
    apply rep_Some in E. destruct E as (mid & b' & -> & Hlen' & _ & E).
    apply rep_Some in E. destruct E as (sp & rest & -> & Hsp & Hc & _).
    destruct sp as [| c [| c' sp]]; try discriminate.
    inversion Hc as [| ? ? Hcs _]; subst. simpl in Hcs.
    apply Ascii.eqb_eq in Hcs. subst c.
    exists code, mid, rest. auto.
  - intros (code & mid & rest & -> & Hlen & Hd & Hlen').
    assert (E : Re.rep digits Re.Digit 0 (code ++ mid ++ " "%char :: rest)
                  (fun pos1 s1 =>
                     Re.rep gap Re.Dot pos1 s1
                       (fun pos2 s2 =>
                          Re.rep 1 (Re.Chr " ") pos2 s2
                            (fun _ _ => Some tt))) = Some tt).
    { apply rep_Some. exists code, (mid ++ " "%char :: rest).
      split; [reflexivity |]. split; [exact Hlen |]. split; [exact Hd |].
      apply rep_Some. exists mid, (" "%char :: rest).
      split; [reflexivity |]. split; [exact Hlen' |].
      split; [| reflexivity].
      apply Forall_forall. intros c Hc. simpl.
      destruct (Ascii.eqb_spec c "010"%char) as [-> | _]; [| reflexivity].
      exfalso. apply Hnl. apply in_or_app. right. apply in_or_app. now left. }
    rewrite E. discriminate.
Qed.

(** X13. On a line without a line feed, as all the lines of a PDF are:
    the Screwfix pattern finds a match exactly when the line starts with
    three digits, two more characters and a space and does not hold the
    telephone number 03330 112 999; the Toolstation pattern exactly when
    the line starts with five digits and a space and holds neither 00006
    nor 00037, wherever in the line. *)
Theorem item_patterns (line : str) :
  ~ In "010"%char line ->
  (Re.search (itemRegex VendorList.SCREWFIX) line = true
   <-> item_code 3 2 line /\ ~ occurs (lit "03330 112 999") line)
  /\ (Re.search (itemRegex VendorList.TOOLSTATION) line = true
      <-> item_code 5 0 line
          /\ ~ occurs (lit "00006") line /\ ~ occurs (lit "00037") line).
Proof.
  intros Hnl. split.
  - change (itemRegex VendorList.SCREWFIX)
      with (Re.Seq
              (Re.Ahead
                 (Re.Seq Re.Bol
                    (Re.Seq (Re.Rep 3 Re.Digit)
                       (Re.Seq (Re.Rep 2 Re.Dot) (Re.Cls (Re.Chr " "))))))
              (Re.NotAhead
                 (Re.Seq (Re.Star Re.Dot) (literal (lit "03330 112 999"))))).
    rewrite anchored_search, (code_prefix 3 2 line Hnl).
    rewrite <- (holds_occurs (lit "03330 112 999") 0 line Hnl).
    cbn [Re.run].
    destruct (Re.star Re.Dot 0 line _); split; intros [H1 H2]; split;
      auto; try discriminate; congruence.
  - change (itemRegex VendorList.TOOLSTATION)
      with (Re.Seq
              (Re.Ahead
                 (Re.Seq Re.Bol
                    (Re.Seq (Re.Rep 5 Re.Digit) (Re.Cls (Re.Chr " ")))))
              (Re.Seq
                 (Re.NotAhead
                    (Re.Seq (Re.Star Re.Dot) (literal (lit "00006"))))
                 (Re.NotAhead
                    (Re.Seq (Re.Star Re.Dot) (literal (lit "00037")))))).
    rewrite anchored_search.
    change (Re.run (Re.Seq (Re.Rep 5 Re.Digit) (Re.Cls (Re.Chr " "))) 0 line
              (fun _ _ => Some tt))
      with (Re.run
              (Re.Seq (Re.Rep 5 Re.Digit)
                 (Re.Seq (Re.Rep 0 Re.Dot) (Re.Cls (Re.Chr " "))))
              0 line (fun _ _ => Some tt)).
    rewrite (code_prefix 5 0 line Hnl).
    rewrite <- (holds_occurs (lit "00006") 0 line Hnl).
    rewrite <- (holds_occurs (lit "00037") 0 line Hnl).
    cbn [Re.run].
    destruct (Re.star Re.Dot 0 line
                (fun pos' s' => Re.run (literal (lit "00006")) pos' s' _));
      destruct (Re.star Re.Dot 0 line
                  (fun pos' s' => Re.run (literal (lit "00037")) pos' s' _));
      split; intros H; repeat split; try tauto; try discriminate;
      try (destruct H as (_ & H); congruence);
      try (destruct H as (_ & H1 & H2); congruence).
Qed.

(** The witness of X13: a Screwfix item line. *)
Lemma item_patterns_witness :
  ~ In "010"%char (lit "123AB Box of screws")
  /\ item_code 3 2 (lit "123AB Box of screws")
  /\ ~ occurs (lit "03330 112 999") (lit "123AB Box of screws").
Proof.
  assert (Hnl : ~ In "010"%char (lit "123AB Box of screws")).
  { intros H. simpl in H.
    repeat (destruct H as [H | H]; [discriminate |]). exact H. }
  split; [exact Hnl |].
  apply (proj1 (proj1 (item_patterns (lit "123AB Box of screws") Hnl))).
  vm_compute. reflexivity.
Defined.

(** ** The rows of the ledger *)













